(** * Inventory tracker (inventory.py): a shallow embedding and its properties

    The program keeps one Python dict from items to quantities, mutates it
    through [add_item] and [remove_item], queries it through [get_qty],
    [check_low_items] and [print_data], and persists it as JSON through
    [save_data] and [load_data].

    Python is dynamically typed and several properties are about what happens
    on ill-typed arguments, so values are modelled by a small universe of
    Python objects with the operators the program applies to them.  The dict
    keeps insertion order, which [check_low_items] exposes, so it is an
    association list.  Calls are state transformers on a [world] that holds
    the dict object, the logging stream, standard output and the files.

    What the model leaves out:
    - [bool], [float] and user classes: the numbers are the integers, without
      bound and written in full;
    - code points from 256 on: a [str] is a Rocq string, one character per
      code point;
    - the text of formatted messages: a log record and an f-string keep the
      format and the objects;
    - files other than text files that can be opened: a path either has a
      text or does not exist, and writing creates it. *)

From Stdlib Require Import ZArith String Ascii Decimal DecimalPos DecimalZ Lia.
From stdpp Require Import base option list gmap strings.

Local Open Scope Z_scope.
Local Open Scope string_scope.
Local Open Scope list_scope.

#[local] Set Warnings "-register-all".

(** ** Python values *)

(** Hashable objects, the ones a dict accepts as keys. *)
Inductive pykey : Type :=
  | KNone
  | KInt (z : Z)
  | KStr (s : string).

(** The objects of the model: [None], [int], [str], [list] and [dict].
    A [str] is a sequence of code points below 256.  [bool], [float] and the
    other types are outside the universe. *)
Inductive pyval : Type :=
  | PyNone
  | PyInt (z : Z)
  | PyStr (s : string)
  | PyList (l : list pyval)
  | PyDict (d : list (pykey * pyval)).

Abbreviation pydict := (list (pykey * pyval)).

Global Instance pykey_eq_dec : EqDecision pykey.
Proof. solve_decision. Defined.

Inductive exn : Type :=
  | TypeError
  | KeyError
  | AttributeError
  | FileNotFoundError
  | JSONDecodeError.

Global Instance exn_eq_dec : EqDecision exn.
Proof. solve_decision. Defined.

(** How an evaluation ends: with a value, with an exception, or [Outside]
    when it leaves the modelled fragment of Python (only the JSON decoder
    produces it, on documents that hold a value outside the universe). *)
Inductive outcome (A : Type) : Type :=
  | Ret (a : A)
  | Raise (e : exn)
  | Outside.
Arguments Ret {A} a.
Arguments Raise {A} e.
Arguments Outside {A}.

Global Instance outcome_ret : MRet outcome := @Ret.
Global Instance outcome_bind : MBind outcome := λ A B f m,
  match m with
  | Ret a => f a
  | Raise e => Raise e
  | Outside => Outside
  end.

Definition of_key (k : pykey) : pyval :=
  match k with
  | KNone => PyNone
  | KInt z => PyInt z
  | KStr s => PyStr s
  end.

(** [hash(item)], as every dict operation calls it first: lists and dicts
    are unhashable. *)
Definition py_hash (v : pyval) : outcome pykey :=
  match v with
  | PyNone => Ret KNone
  | PyInt z => Ret (KInt z)
  | PyStr s => Ret (KStr s)
  | PyList _ | PyDict _ => Raise TypeError
  end.

(** ** The dict: insertion-ordered, keys compared by equality *)

Fixpoint dict_lookup (d : pydict) (k : pykey) : option pyval :=
  match d with
  | [] => None
  | (k', v) :: r => if decide (k' = k) then Some v else dict_lookup r k
  end.

(** [d[k] = v]: an existing key keeps its place, a new key goes last. *)
Fixpoint dict_set (d : pydict) (k : pykey) (v : pyval) : pydict :=
  match d with
  | [] => [(k, v)]
  | (k', v') :: r =>
      if decide (k' = k) then (k', v) :: r else (k', v') :: dict_set r k v
  end.

(** [del d[k]] for a key that is present. *)
Fixpoint dict_del (d : pydict) (k : pykey) : pydict :=
  match d with
  | [] => []
  | (k', v') :: r =>
      if decide (k' = k) then dict_del r k else (k', v') :: dict_del r k
  end.

Definition dict_keys (d : pydict) : list pykey := d.*1.

(** A dict object never holds a key twice. *)
Definition dict_wf (d : pydict) : Prop := NoDup (dict_keys d).

(** ** Operators *)

(** [a == b].  Lists compare element by element, dicts entry by entry
    whatever the order. *)
Fixpoint py_eq (a b : pyval) {struct a} : bool :=
  match a, b with
  | PyNone, PyNone => true
  | PyInt x, PyInt y => bool_decide (x = y)
  | PyStr x, PyStr y => bool_decide (x = y)
  | PyList xs, PyList ys =>
      (fix go (xs ys : list pyval) {struct xs} : bool :=
         match xs, ys with
         | [], [] => true
         | x :: xs', y :: ys' => py_eq x y && go xs' ys'
         | _, _ => false
         end) xs ys
  | PyDict d, PyDict e =>
      bool_decide (length d = length e) &&
      (fix go (d : pydict) {struct d} : bool :=
         match d with
         | [] => true
         | (k, v) :: d' =>
             match dict_lookup e k with
             | Some v' => py_eq v v'
             | None => false
             end && go d'
         end) d
  | _, _ => false
  end.

(** [a + b]: integer addition, concatenation of two strings or of two
    lists, [TypeError] otherwise. *)
Definition py_add (a b : pyval) : outcome pyval :=
  match a, b with
  | PyInt x, PyInt y => Ret (PyInt (x + y))
  | PyStr x, PyStr y => Ret (PyStr (x +:+ y))
  | PyList x, PyList y => Ret (PyList (x ++ y))
  | _, _ => Raise TypeError
  end.

(** [a - b]: of the universe only integers support it. *)
Definition py_sub (a b : pyval) : outcome pyval :=
  match a, b with
  | PyInt x, PyInt y => Ret (PyInt (x - y))
  | _, _ => Raise TypeError
  end.

(** [a < b] and [a <= b]: integers by value, strings by code points, lists
    by their first differing elements; [TypeError] otherwise. *)
Fixpoint py_lt (a b : pyval) {struct a} : outcome bool :=
  match a, b with
  | PyInt x, PyInt y => Ret (Z.ltb x y)
  | PyStr x, PyStr y => Ret (String.ltb x y)
  | PyList xs, PyList ys =>
      (fix go (xs ys : list pyval) {struct xs} : outcome bool :=
         match xs, ys with
         | [], [] => Ret false
         | [], _ :: _ => Ret true
         | _ :: _, [] => Ret false
         | x :: xs', y :: ys' => if py_eq x y then go xs' ys' else py_lt x y
         end) xs ys
  | _, _ => Raise TypeError
  end.

Fixpoint py_le (a b : pyval) {struct a} : outcome bool :=
  match a, b with
  | PyInt x, PyInt y => Ret (Z.leb x y)
  | PyStr x, PyStr y => Ret (String.leb x y)
  | PyList xs, PyList ys =>
      (fix go (xs ys : list pyval) {struct xs} : outcome bool :=
         match xs, ys with
         | [], _ => Ret true
         | _ :: _, [] => Ret false
         | x :: xs', y :: ys' => if py_eq x y then go xs' ys' else py_le x y
         end) xs ys
  | _, _ => Raise TypeError
  end.

(** ** The world and its monad *)

Inductive log_level : Type := INFO | WARNING | ERROR.

(** A record handed to [logging]: the level, the format string and its
    arguments (the handler formats them; the time stamp it adds is left
    out). *)
Record log_record : Type := LogRecord {
  level : log_level;
  template : string;
  args : list pyval
}.

(** A line written by [print]: a literal, or an f-string given by its
    text with [{}] for each field and the objects the fields format. *)
Inductive out_line : Type :=
  | Text (s : string)
  | FString (fmt : string) (fields : list pyval).

(** The message [add_item] appends to [logs], by the three values its
    f-string formats. *)
Record audit_entry : Type := AuditEntry {
  stamp : N;
  added_qty : pyval;
  added_item : pyval
}.

Record world : Type := World {
  data : pydict;                 (* the dict object [data] refers to *)
  logged : list log_record;      (* what went to the logging stream *)
  stdout : list out_line;        (* what went to standard output *)
  disk : gmap string string      (* the text files, by path *)
}.

Definition M (A : Type) : Type := world → outcome A * world.

Global Instance M_ret : MRet M := λ A a w, (Ret a, w).
Global Instance M_bind : MBind M := λ A B f m w,
  match m w with
  | (Ret a, w') => f a w'
  | (Raise e, w') => (Raise e, w')
  | (Outside, w') => (Outside, w')
  end.

Definition lift {A} (o : outcome A) : M A := λ w, (o, w).
Definition gets {A} (f : world → A) : M A := λ w, (Ret (f w), w).
Definition modify (f : world → world) : M () := λ w, (Ret (), f w).

(** [try: body except ...]: [handlers] gives the clause that matches the
    exception, if any; the state reached when it was raised is kept. *)
Definition try_except {A} (body : M A) (handlers : exn → option (M A)) : M A :=
  λ w,
    match body w with
    | (Raise e, w') =>
        match handlers e with
        | Some h => h w'
        | None => (Raise e, w')
        end
    | r => r
    end.

Definition except (e : exn) {A} (h : M A) : exn → option (M A) :=
  λ e', if decide (e' = e) then Some h else None.

Definition set_data (d : pydict) (w : world) : world :=
  World d (logged w) (stdout w) (disk w).

Definition logging (lvl : log_level) (fmt : string) (a : list pyval) : M () :=
  modify (λ w, World (data w) (logged w ++ [LogRecord lvl fmt a]) (stdout w) (disk w)).

Definition print (l : out_line) : M () :=
  modify (λ w, World (data w) (logged w) (stdout w ++ [l]) (disk w)).

(** [data.get(item, dflt)] *)
Definition data_get (item dflt : pyval) : M pyval :=
  k ← lift (py_hash item);
  d ← gets data;
  mret (default dflt (dict_lookup d k)).

(** [item in data] *)
Definition data_contains (item : pyval) : M bool :=
  k ← lift (py_hash item);
  d ← gets data;
  mret (bool_decide (is_Some (dict_lookup d k))).

(** [data[item]] *)
Definition data_getitem (item : pyval) : M pyval :=
  k ← lift (py_hash item);
  d ← gets data;
  match dict_lookup d k with
  | Some v => mret v
  | None => lift (Raise KeyError)
  end.

(** [data[item] = v] *)
Definition data_setitem (item v : pyval) : M () :=
  k ← lift (py_hash item);
  d ← gets data;
  modify (set_data (dict_set d k v)).

(** [del data[item]] *)
Definition data_delitem (item : pyval) : M () :=
  k ← lift (py_hash item);
  d ← gets data;
  match dict_lookup d k with
  | Some _ => modify (set_data (dict_del d k))
  | None => lift (Raise KeyError)
  end.

(** ** The inventory operations *)

(** [add_item(data, item, qty, logs=None)].  [now] is what [datetime.now()]
    answers during the call.  The value returned is the final contents of
    the list bound to [logs], which Python mutates in place. *)
Definition add_item (now : N) (item qty : pyval) (logs : option (list audit_entry))
    : M (list audit_entry) :=
  let logs := default [] logs in
  try_except
    (cur ← data_get item (PyInt 0);
     v ← lift (py_add cur qty);
     data_setitem item v;;
     let logs := logs ++ [AuditEntry now qty item] in
     logging INFO "Added %s of %s" [qty; item];;
     mret logs)
    (except TypeError
       (logging ERROR "Invalid data type for item or quantity. Could not add '%s'." [item];;
        mret logs)).

(** [remove_item(data, item, qty)] *)
Definition remove_item (item qty : pyval) : M () :=
  try_except
    (present ← data_contains item;
     if (present : bool) then
       cur ← data_getitem item;
       v ← lift (py_sub cur qty);
       data_setitem item v;;
       cur ← data_getitem item;
       gone ← lift (py_le cur (PyInt 0));
       (if (gone : bool) then data_delitem item else mret ());;
       logging INFO "Removed %s of %s" [qty; item]
     else
       logging WARNING "Attempted to remove an item that does not exist: %s" [item])
    (except TypeError
       (logging ERROR "Invalid quantity type for item '%s'." [item])).

(** [get_qty(data, item)] *)
Definition get_qty (item : pyval) : M pyval :=
  data_get item (PyInt 0).

(** The comprehension of [check_low_items] over [data.items()]. *)
Fixpoint low_items (entries : pydict) (threshold : pyval) : outcome (list pyval) :=
  match entries with
  | [] => Ret []
  | (item, quantity) :: rest =>
      low ← py_lt quantity threshold;
      more ← low_items rest threshold;
      Ret (if (low : bool) then of_key item :: more else more)
  end.

(** [check_low_items(data, threshold=5)] *)
Definition check_low_items (threshold : option pyval) : M (list pyval) :=
  let threshold := default (PyInt 5) threshold in
  d ← gets data;
  lift (low_items d threshold).

Definition nl : string := String "010"%char EmptyString.

Fixpoint print_items (entries : pydict) : M () :=
  match entries with
  | [] => mret ()
  | (item, quantity) :: rest => print (FString "{} -> {}" [of_key item; quantity]);;
      print_items rest
  end.

(** [print_data(data)] *)
Definition print_data : M () :=
  print (Text (nl +:+ "--- Items Report ---"));;
  d ← gets data;
  match d with
  | [] => print (Text "Inventory is empty.")
  | _ :: _ => print_items d
  end;;
  print (Text ("--------------------" +:+ nl)).

(** ** The json module, as far as the program uses it

    [json.dump(data, f, indent=4)] and [json.load(f)] belong to Python's
    library; they are modelled on the universe: the encoder with its defaults
    ([ensure_ascii], separators [","] and [": "]), the decoder by recursive
    descent like the library's scanner. *)

Definition dq : ascii := "034"%char.
Definition bs : ascii := "092"%char.

Definition hex_digit (n : N) : ascii :=
  ascii_of_N (if (n <? 10)%N then 48 + n else 87 + n).

(** The escape of one character: the two-character forms, the character
    itself between space and tilde, a [\u00XX] form otherwise. *)
Definition escape_char (c : ascii) : string :=
  match c with
  | "034"%char => String bs (String dq EmptyString)
  | "092"%char => String bs (String bs EmptyString)
  | "008"%char => String bs "b"
  | "012"%char => String bs "f"
  | "010"%char => String bs "n"
  | "013"%char => String bs "r"
  | "009"%char => String bs "t"
  | _ =>
      let n := N_of_ascii c in
      if ((32 <=? n) && (n <=? 126))%N then String c EmptyString
      else String bs ("u00" +:+
             String (hex_digit (n / 16)) (String (hex_digit (n mod 16)) EmptyString))
  end.

Fixpoint escape (s : string) : string :=
  match s with
  | EmptyString => EmptyString
  | String c r => escape_char c +:+ escape r
  end.

Definition encode_str (s : string) : string :=
  String dq (escape s +:+ String dq EmptyString).

Fixpoint digits (u : uint) : string :=
  match u with
  | Nil => EmptyString
  | D0 u => String "0" (digits u)
  | D1 u => String "1" (digits u)
  | D2 u => String "2" (digits u)
  | D3 u => String "3" (digits u)
  | D4 u => String "4" (digits u)
  | D5 u => String "5" (digits u)
  | D6 u => String "6" (digits u)
  | D7 u => String "7" (digits u)
  | D8 u => String "8" (digits u)
  | D9 u => String "9" (digits u)
  end.

(** The decimal writing of an integer, as [int.__repr__] gives it. *)
Definition encode_int (z : Z) : string :=
  match Z.to_int z with
  | Pos u => digits u
  | Neg u => String "-" (digits u)
  end.

(** A key of another type is written as the string of its value. *)
Definition encode_key (k : pykey) : string :=
  match k with
  | KStr s => encode_str s
  | KInt z => encode_str (encode_int z)
  | KNone => encode_str "null"
  end.

Fixpoint spaces (n : nat) : string :=
  match n with
  | O => EmptyString
  | S n => String " " (spaces n)
  end.

Definition newline_indent (level : nat) : string :=
  nl +:+ spaces (4 * level).

(** The elements of a list after the first, with the closing bracket;
    [enc] encodes one element at the inner level. *)
Definition elements_text (enc : pyval → string) (level : nat) : list pyval → string :=
  fix more (xs : list pyval) : string :=
    match xs with
    | [] => newline_indent level +:+ "]"
    | y :: ys => "," +:+ newline_indent (S level) +:+ enc y +:+ more ys
    end.

(** The entries of a dict after the first, with the closing brace. *)
Definition entries_text (enc : pyval → string) (level : nat) : pydict → string :=
  fix more (d : pydict) : string :=
    match d with
    | [] => newline_indent level +:+ "}"
    | (k, y) :: d' =>
        "," +:+ newline_indent (S level) +:+
        encode_key k +:+ ": " +:+ enc y +:+ more d'
    end.

(** The text of a value that starts at nesting [level]. *)
Fixpoint json_encode (level : nat) (v : pyval) {struct v} : string :=
  match v with
  | PyNone => "null"
  | PyInt z => encode_int z
  | PyStr s => encode_str s
  | PyList [] => "[]"
  | PyList (x :: xs) =>
      "[" +:+ newline_indent (S level) +:+ json_encode (S level) x +:+
      elements_text (json_encode (S level)) level xs
  | PyDict [] => "{}"
  | PyDict ((k, x) :: d) =>
      "{" +:+ newline_indent (S level) +:+
      encode_key k +:+ ": " +:+ json_encode (S level) x +:+
      entries_text (json_encode (S level)) level d
  end.

(** [json.dumps(v, indent=4)] *)
Definition json_dumps (v : pyval) : string := json_encode 0 v.

(** *** The decoder *)

Definition is_ws (c : ascii) : bool :=
  match c with
  | " "%char | "009"%char | "010"%char | "013"%char => true
  | _ => false
  end.

Fixpoint skip_ws (s : string) : string :=
  match s with
  | String c r => if is_ws c then skip_ws r else s
  | EmptyString => s
  end.

Definition digit_of (c : ascii) : option (uint → uint) :=
  match c with
  | "0"%char => Some D0 | "1"%char => Some D1 | "2"%char => Some D2
  | "3"%char => Some D3 | "4"%char => Some D4 | "5"%char => Some D5
  | "6"%char => Some D6 | "7"%char => Some D7 | "8"%char => Some D8
  | "9"%char => Some D9
  | _ => None
  end.

Definition is_digit (c : ascii) : bool := bool_decide (is_Some (digit_of c)).

Fixpoint scan_digits (s : string) : uint * string :=
  match s with
  | String c r =>
      match digit_of c with
      | Some d => let '(u, r') := scan_digits r in (d u, r')
      | None => (Nil, s)
      end
  | EmptyString => (Nil, s)
  end.

(** The integer part of a number: a lone [0], or a digit from 1 to 9 and
    the digits after it. *)
Definition match_int (s : string) : option (uint * string) :=
  match s with
  | String "0"%char r => Some (D0 Nil, r)
  | String c r =>
      match digit_of c with
      | Some d => let '(u, r') := scan_digits r in Some (d u, r')
      | None => None
      end
  | EmptyString => None
  end.

(** Whether a fraction or an exponent follows, which makes the number a
    float. *)
Definition float_follows (s : string) : bool :=
  match s with
  | String "."%char (String c _) => is_digit c
  | String e (String c r) =>
      (bool_decide (e = "e"%char) || bool_decide (e = "E"%char)) &&
      (is_digit c ||
       ((bool_decide (c = "+"%char) || bool_decide (c = "-"%char)) &&
        match r with String c' _ => is_digit c' | EmptyString => false end))
  | _ => false
  end.

Definition match_number (s : string) : outcome (pyval * string) :=
  let '(neg, s1) :=
    match s with
    | String "-"%char r => (true, r)
    | _ => (false, s)
    end in
  match match_int s1 with
  | None => Raise JSONDecodeError
  | Some (u, r) =>
      if float_follows r then Outside
      else Ret (PyInt (Z.of_int (if neg then Neg u else Pos u)), r)
  end.

Definition hex_val (c : ascii) : option N :=
  let n := N_of_ascii c in
  if ((48 <=? n) && (n <=? 57))%N then Some (n - 48)%N
  else if ((97 <=? n) && (n <=? 102))%N then Some (n - 87)%N
  else if ((65 <=? n) && (n <=? 70))%N then Some (n - 55)%N
  else None.

Definition hex4 (a b c d : ascii) : option N :=
  a ← hex_val a; b ← hex_val b; c ← hex_val c; d ← hex_val d;
  Some (((a * 16 + b) * 16 + c) * 16 + d)%N.

Definition prepend (c : ascii) (o : outcome (string * string)) : outcome (string * string) :=
  '(s, r) ← o; Ret (String c s, r).

(** The body of a string, after its opening quote, up to the closing one:
    the decoded text and the input left. *)
Fixpoint scanstring (s : string) : outcome (string * string) :=
  match s with
  | EmptyString => Raise JSONDecodeError
  | String "034"%char r => Ret (EmptyString, r)
  | String "092"%char r =>
      match r with
      | String "034"%char r' => prepend dq (scanstring r')
      | String "092"%char r' => prepend bs (scanstring r')
      | String "/"%char r' => prepend "/" (scanstring r')
      | String "b"%char r' => prepend "008" (scanstring r')
      | String "f"%char r' => prepend "012" (scanstring r')
      | String "n"%char r' => prepend "010" (scanstring r')
      | String "r"%char r' => prepend "013" (scanstring r')
      | String "t"%char r' => prepend "009" (scanstring r')
      | String "u"%char (String h1 (String h2 (String h3 (String h4 r')))) =>
          match hex4 h1 h2 h3 h4 with
          | Some n =>
              if (n <? 256)%N then prepend (ascii_of_N n) (scanstring r')
              else Outside
          | None => Raise JSONDecodeError
          end
      | _ => Raise JSONDecodeError
      end
  | String c r =>
      if (N_of_ascii c <? 32)%N then Raise JSONDecodeError
      else prepend c (scanstring r)
  end.

(** [expect lit s]: the input after the literal, if it starts with it. *)
Fixpoint expect (lit s : string) : option string :=
  match lit, s with
  | EmptyString, _ => Some s
  | String a lit', String b s' => if decide (a = b) then expect lit' s' else None
  | String _ _, EmptyString => None
  end.

Definition starts_with (lit s : string) : bool :=
  match expect lit s with
  | Some _ => true
  | None => false
  end.

Definition parsed : Type := outcome (pyval * string).

(** One value at the head of the input: a string, an object, a list, a
    literal or a number.  [members] and [elements] read what follows the
    opening brace or bracket. *)
Definition scan_value (members : string → pydict → parsed)
    (elements : string → list pyval → parsed) (s : string) : parsed :=
  match s with
  | String "034"%char r =>
      '(str, r') ← scanstring r; Ret (PyStr str, r')
  | String "{"%char r =>
      match skip_ws r with
      | String "}"%char r' => Ret (PyDict [], r')
      | r' => members r' []
      end
  | String "["%char r =>
      match skip_ws r with
      | String "]"%char r' => Ret (PyList [], r')
      | r' => elements r' []
      end
  | String "n"%char r =>
      match expect "ull" r with
      | Some r' => Ret (PyNone, r')
      | None => Raise JSONDecodeError
      end
  | String "t"%char r =>
      if starts_with "rue" r then Outside else Raise JSONDecodeError
  | String "f"%char r =>
      if starts_with "alse" r then Outside else Raise JSONDecodeError
  | String "N"%char r =>
      if starts_with "aN" r then Outside else Raise JSONDecodeError
  | String "I"%char r =>
      if starts_with "nfinity" r then Outside else Raise JSONDecodeError
  | String "-"%char r =>
      if starts_with "Infinity" r then Outside else match_number s
  | _ => match_number s
  end.

(** One turn of the loop over the members of an object, at the quote that
    opens a key; [acc] is the dict built so far, a repeated key takes its
    last value. *)
Definition scan_member (value : string → parsed)
    (members : string → pydict → parsed) (s : string) (acc : pydict) : parsed :=
  match s with
  | String "034"%char r =>
      '(key, r1) ← scanstring r;
      match skip_ws r1 with
      | String ":"%char r2 =>
          '(val, r3) ← value (skip_ws r2);
          let acc := dict_set acc (KStr key) val in
          match skip_ws r3 with
          | String "}"%char r4 => Ret (PyDict acc, r4)
          | String ","%char r4 => members (skip_ws r4) acc
          | _ => Raise JSONDecodeError
          end
      | _ => Raise JSONDecodeError
      end
  | _ => Raise JSONDecodeError
  end.

(** One turn of the loop over the elements of a list. *)
Definition scan_element (value : string → parsed)
    (elements : string → list pyval → parsed) (s : string) (acc : list pyval)
    : parsed :=
  '(val, r1) ← value s;
  let acc := acc ++ [val] in
  match skip_ws r1 with
  | String "]"%char r2 => Ret (PyList acc, r2)
  | String ","%char r2 => elements (skip_ws r2) acc
  | _ => Raise JSONDecodeError
  end.

(** The recursive descent.  [fuel] bounds the depth of the calls; on an
    input of [n] characters [2 * n + 1] is enough, and more changes
    nothing. *)
Fixpoint scan_once (fuel : nat) (s : string) {struct fuel} : parsed :=
  match fuel with
  | O => Outside
  | S fuel => scan_value (parse_members fuel) (parse_elements fuel) s
  end
with parse_members (fuel : nat) (s : string) (acc : pydict) {struct fuel} : parsed :=
  match fuel with
  | O => Outside
  | S fuel => scan_member (scan_once fuel) (parse_members fuel) s acc
  end
with parse_elements (fuel : nat) (s : string) (acc : list pyval) {struct fuel}
    : parsed :=
  match fuel with
  | O => Outside
  | S fuel => scan_element (scan_once fuel) (parse_elements fuel) s acc
  end.

(** [json.loads(s)]: one value between optional white space, and nothing
    after it. *)
Definition json_loads (s : string) : outcome pyval :=
  '(v, r) ← scan_once (S (2 * String.length s)) (skip_ws s);
  match skip_ws r with
  | EmptyString => Ret v
  | String _ _ => Raise JSONDecodeError
  end.

(** ** Persistence *)

Definition set_disk (fs : gmap string string) (w : world) : world :=
  World (data w) (logged w) (stdout w) fs.

(** [open(file, "r")] followed by reading the whole text. *)
Definition open_read (file : string) : M string :=
  fs ← gets disk;
  match fs !! file with
  | Some text => mret text
  | None => lift (Raise FileNotFoundError)
  end.

(** [open(file, "w")]: the file is created or emptied. *)
Definition open_write (file : string) : M () :=
  fs ← gets disk;
  modify (set_disk (<[file := EmptyString]> fs)).

(** [f.write(text)] on the file opened at [file]. *)
Definition file_write (file text : string) : M () :=
  fs ← gets disk;
  modify (set_disk (<[file := default EmptyString (fs !! file) +:+ text]> fs)).

Definition default_file : string := "inventory.json".

(** [load_data(file="inventory.json")] *)
Definition load_data (file : option string) : M pyval :=
  let file := default default_file file in
  try_except
    (text ← open_read file;
     logging INFO "Inventory data loaded successfully from %s." [PyStr file];;
     lift (json_loads text))
    (λ e,
       match e with
       | FileNotFoundError =>
           Some (logging WARNING "%s not found. Starting with an empty inventory."
                   [PyStr file];;
                 mret (PyDict []))
       | JSONDecodeError =>
           Some (logging ERROR "Failed to decode JSON from %s. Starting fresh."
                   [PyStr file];;
                 mret (PyDict []))
       | _ => None
       end).

(** [save_data(data, file="inventory.json")] *)
Definition save_data (file : option string) : M () :=
  let file := default default_file file in
  open_write file;;
  d ← gets data;
  file_write file (json_dumps (PyDict d));;
  logging INFO "Inventory data saved successfully to %s." [PyStr file].

(** [main()].  [t1], [t2] and [t3] are the times its three [add_item] calls
    read.  [inventory_data] is whatever [load_data] returned; when that is
    not a dict, the first method call on it raises [AttributeError]. *)
Definition main (t1 t2 t3 : N) : M () :=
  inventory_data ← load_data None;
  match inventory_data with
  | PyDict d => modify (set_data d)
  | _ => lift (Raise AttributeError)
  end;;
  add_item t1 (PyStr "apple") (PyInt 10) None;;
  add_item t2 (PyStr "banana") (PyInt 2) None;;
  add_item t3 (PyInt 123) (PyStr "ten") None;;
  remove_item (PyStr "apple") (PyInt 3);;
  remove_item (PyStr "orange") (PyInt 1);;
  apple ← get_qty (PyStr "apple");
  print (FString "Apple stock: {}" [apple]);;
  low ← check_low_items None;
  print (FString "Low items: {}" [PyList low]);;
  save_data None;;
  print_data.

(** ** Sequences of calls *)

Inductive call : Type :=
  | AddItem (now : N) (item qty : pyval) (logs : option (list audit_entry))
  | RemoveItem (item qty : pyval).

Definition run_call (c : call) (w : world) : world :=
  match c with
  | AddItem now item qty logs => (add_item now item qty logs w).2
  | RemoveItem item qty => (remove_item item qty w).2
  end.

Definition run (cs : list call) (w : world) : world :=
  fold_left (λ w c, run_call c w) cs w.

Definition empty_world : world := World [] [] [] ∅.



(** Every stored quantity is a strictly positive integer. *)
Definition positive_entry (e : pykey * pyval) : Prop :=
  ∃ q, e.2 = PyInt q ∧ 0 < q.

Definition all_positive (d : pydict) : Prop := Forall positive_entry d.

(** Calls to [add_item] that do not pass an integer below 1. *)
Definition adds_positive (c : call) : Prop :=
  match c with
  | AddItem _ _ qty _ => ∀ q, qty = PyInt q → 0 < q
  | RemoveItem _ _ => True
  end.

(** ** Vocabulary of the properties *)

Inductive pytype : Type := TNone | TInt | TStr | TList | TDict.

Definition type_of (v : pyval) : pytype :=
  match v with
  | PyNone => TNone
  | PyInt _ => TInt
  | PyStr _ => TStr
  | PyList _ => TList
  | PyDict _ => TDict
  end.

Definition hashable (t : pytype) : bool :=
  match t with
  | TNone | TInt | TStr => true
  | TList | TDict => false
  end.

(** The pairs of types [+] accepts. *)
Definition supports_add (a b : pytype) : bool :=
  match a, b with
  | TInt, TInt | TStr, TStr | TList, TList => true
  | _, _ => false
  end.

(** What [data.get(item, 0)] evaluates to on a dict [d], for any item. *)
Definition stored_or_zero (d : pydict) (item : pyval) : pyval :=
  match py_hash item with
  | Ret k => default (PyInt 0) (dict_lookup d k)
  | _ => PyInt 0
  end.

(** The arguments of an [add_item] call do not fit: the item cannot be a
    key, or the quantity cannot be added to what the dict holds. *)
Definition type_mismatch (d : pydict) (item qty : pyval) : Prop :=
  hashable (type_of item) = false ∨
  supports_add (type_of (stored_or_zero d item)) (type_of qty) = false.

Definition append_log (r : log_record) (w : world) : world :=
  World (data w) (logged w ++ [r]) (stdout w) (disk w).

(** An inventory as the data model has it: integer quantities. *)
Definition int_valued (d : pydict) : Prop :=
  Forall (λ e : pykey * pyval, type_of e.2 = TInt) d.

Definition qty_below (t : Z) (e : pykey * pyval) : Prop :=
  match e.2 with
  | PyInt q => q < t
  | _ => False
  end.

Global Instance qty_below_dec t e : Decision (qty_below t e).
Proof. unfold qty_below. destruct (e.2); apply _. Defined.

(** The items whose quantity is below [t], in the order of the dict. *)
Definition low_stock (d : pydict) (t : Z) : list pyval :=
  of_key <$> (filter (qty_below t) d).*1.

(** An inventory of the persisted form: string keys, integer values. *)
Definition str_int_entry (e : pykey * pyval) : Prop :=
  ∃ s q, e = (KStr s, PyInt q).

Definition str_int_inventory (d : pydict) : Prop :=
  dict_wf d ∧ Forall str_int_entry d.

(** The running total of an item over a sequence of calls, clamped at
    every step. *)
Definition clamp (z : Z) : Z := if (z <=? 0)%Z then 0 else z.

Definition names (item : pyval) (k : pykey) : bool :=
  match py_hash item with
  | Ret k' => bool_decide (k' = k)
  | _ => false
  end.

Definition tally (k : pykey) (total : Z) (c : call) : Z :=
  match c with
  | AddItem _ item (PyInt q) _ =>
      if names item k then clamp (total + q) else total
  | RemoveItem item (PyInt q) =>
      if names item k then clamp (total - q) else total
  | _ => total
  end.

Definition running_total (k : pykey) (cs : list call) : Z :=
  fold_left (tally k) cs 0.

(** A call on an item that can be a key, with an integer quantity. *)
Definition numeric_call (c : call) : Prop :=
  match c with
  | AddItem _ item qty _ | RemoveItem item qty =>
      hashable (type_of item) = true ∧ type_of qty = TInt
  end.

(** A numeric call that adds at least 1 or removes at least 0. *)
Definition stocking_call (c : call) : Prop :=
  match c with
  | AddItem _ item qty _ =>
      hashable (type_of item) = true ∧ ∃ q, qty = PyInt q ∧ 0 < q
  | RemoveItem item qty =>
      hashable (type_of item) = true ∧ ∃ q, qty = PyInt q ∧ 0 <= q
  end.

Definition add_error_record (item : pyval) : log_record :=
  LogRecord ERROR "Invalid data type for item or quantity. Could not add '%s'." [item].

Definition remove_warning_record (item : pyval) : log_record :=
  LogRecord WARNING "Attempted to remove an item that does not exist: %s" [item].

Definition remove_error_record (item : pyval) : log_record :=
  LogRecord ERROR "Invalid quantity type for item '%s'." [item].

(** The demonstration's two additions, and the state they leave. *)
Definition stocking_calls : list call :=
  [AddItem 0 (PyStr "apple") (PyInt 10) None;
   AddItem 0 (PyStr "banana") (PyInt 2) None].

Definition stocked : world := run stocking_calls empty_world.

(** A single call that adds a negative quantity, and the state it leaves. *)
Definition overdrawn_calls : list call :=
  [AddItem 0 (PyStr "apple") (PyInt (-5)) None].


(** The dict holds [t] for [k]: nothing when [t] is 0. *)
Definition tracks (d : pydict) (k : pykey) (t : Z) : Prop :=
  0 <= t ∧
  dict_lookup d k = if decide (t = 0) then None else Some (PyInt t).

Definition load_info_record (path : string) : log_record :=
  LogRecord INFO "Inventory data loaded successfully from %s." [PyStr path].

Definition load_warning_record (path : string) : log_record :=
  LogRecord WARNING "%s not found. Starting with an empty inventory." [PyStr path].

Definition load_error_record (path : string) : log_record :=
  LogRecord ERROR "Failed to decode JSON from %s. Starting fresh." [PyStr path].

(** A file cut short: an object that is never closed. *)
Definition truncated_json : string :=
  String "{" (String dq (String "a" (String dq ": 1"))).

Definition corrupted : world :=
  set_disk {[ default_file := truncated_json ]} empty_world.

(** The number of digits ends here: no digit, fraction or exponent follows. *)
Definition number_stop (rest : string) : Prop :=
  match rest with
  | EmptyString => True
  | String c _ => c = ","%char ∨ c = "010"%char
  end.

(** A digit sequence as the encoder writes it: a lone zero, or no zero in
    front. *)
Definition canonical (u : uint) : Prop :=
  match u with
  | Nil => False
  | D0 Nil => True
  | D0 _ => False
  | _ => True
  end.

(** The dict a decoder builds from the pairs it meets, in order. *)
Definition dict_update (acc d : pydict) : pydict :=
  fold_left (λ acc e, dict_set acc e.1 e.2) d acc.

(** A value parser leaves less input than it was given whenever it
    succeeds; the same for a loop that carries an accumulator. *)
Definition consumes (value : string → parsed) : Prop :=
  ∀ s v r, value s = Ret (v, r) → (String.length r < String.length s)%nat.

Definition consumes_acc {A} (loop : string → A → parsed) : Prop :=
  ∀ s acc v r, loop s acc = Ret (v, r) → (String.length r < String.length s)%nat.

(** ** Vocabulary of the further properties *)

(** Two states that differ at most in the dict and the log. *)
Definition same_io (w w' : world) : Prop :=
  stdout w' = stdout w ∧ disk w' = disk w.

(** [w'] has exactly one log record more than [w]. *)
Definition logs_once (w w' : world) : Prop :=
  ∃ r, logged w' = logged w ++ [r].


(** A stocked inventory with one entry that is not a number. *)
Definition labelled : world :=
  set_data [(KStr "apple", PyInt 10); (KStr "note", PyStr "fragile")] empty_world.

(** The lines [print_data] writes for a dict. *)
Definition report_lines (d : pydict) : list out_line :=
  [Text (nl +:+ "--- Items Report ---")] ++
  match d with
  | [] => [Text "Inventory is empty."]
  | _ :: _ => (λ e : pykey * pyval, FString "{} -> {}" [of_key e.1; e.2]) <$> d
  end ++
  [Text ("--------------------" +:+ nl)].

Definition print_lines (ls : list out_line) (w : world) : world :=
  World (data w) (logged w) (stdout w ++ ls) (disk w).

Definition save_info_record (path : string) : log_record :=
  LogRecord INFO "Inventory data saved successfully to %s." [PyStr path].

(** A parser that raises nothing but [JSONDecodeError]. *)
Definition decode_errors_only {A} (o : outcome A) : Prop :=
  ∀ e, o = Raise e → e = JSONDecodeError.

(** A file that holds only white space. *)
Definition blank_file : world :=
  set_disk {[ default_file := String " " nl ]} empty_world.

(** The integer a dict holds for a key, 0 when it holds none. *)
Definition quantity (d : pydict) (k : pykey) : Z :=
  match dict_lookup d k with
  | Some (PyInt c) => c
  | _ => 0
  end.

(** The five calls [main] makes on the inventory it loaded. *)
Definition demo_calls (t1 t2 t3 : N) : list call :=
  [AddItem t1 (PyStr "apple") (PyInt 10) None;
   AddItem t2 (PyStr "banana") (PyInt 2) None;
   AddItem t3 (PyInt 123) (PyStr "ten") None;
   RemoveItem (PyStr "apple") (PyInt 3);
   RemoveItem (PyStr "orange") (PyInt 1)].

(** What [main] prints before the report. *)
Definition summary_lines (d : pydict) (low : list pyval) : list out_line :=
  [FString "Apple stock: {}" [default (PyInt 0) (dict_lookup d (KStr "apple"))];
   FString "Low items: {}" [PyList low]].

(** A file that holds a JSON list instead of an object. *)
Definition list_file : world :=
  set_disk {[ default_file := "[1, 2]" ]} empty_world.

(** Calls that cannot put a key other than a string in a dict of integers:
    the item is a string, or the quantity is no integer and the call
    fails. *)
Definition keeps_str_keys (c : call) : Prop :=
  match c with
  | AddItem _ item qty _ => (∃ s, item = PyStr s) ∨ type_of qty ≠ TInt
  | RemoveItem _ _ => True
  end.

(** The state [save_data] leaves when it saves the stocked inventory. *)
Definition saved : world := (save_data None stocked).2.

(** The name under which the encoder writes a key. *)
Definition key_name (k : pykey) : string :=
  match k with
  | KStr s => s
  | KInt z => encode_int z
  | KNone => "null"
  end.

(** What comes back from the file for a dict: every key by its name, in
    order, a name met again taking the later value. *)
Definition as_loaded (d : pydict) : pydict :=
  dict_update [] ((λ e : pykey * pyval, (KStr (key_name e.1), e.2)) <$> d).

(** An inventory with an integer key next to the string of the same
    digits. *)
Definition mixed_keys : world :=
  set_data [(KInt 123, PyInt 5); (KStr "pear", PyInt 1); (KStr "123", PyInt 8)]
    empty_world.

(** Printable ASCII, or the newline. *)
Definition plain_char (c : ascii) : bool :=
  let n := N_of_ascii c in
  ((32 <=? n) && (n <=? 126))%N || (n =? 10)%N.

Fixpoint plain_text (s : string) : bool :=
  match s with
  | EmptyString => true
  | String c r => plain_char c && plain_text r
  end.

(** ** Facts about the dict *)

Lemma dict_lookup_set (d : pydict) (k k' : pykey) (v : pyval) :
  dict_lookup (dict_set d k v) k' =
  if decide (k = k') then Some v else dict_lookup d k'.
Proof.
  induction d as [|[k0 v0] d IH]; simpl.
  - destruct (decide (k = k')); reflexivity.
  - destruct (decide (k0 = k)) as [->|Hne]; simpl.
    + destruct (decide (k = k')); reflexivity.
    + rewrite IH. destruct (decide (k0 = k')) as [->|]; [|reflexivity].
      destruct (decide (k = k')); congruence.
Qed.

Lemma dict_lookup_del (d : pydict) (k k' : pykey) :
  dict_lookup (dict_del d k) k' =
  if decide (k = k') then None else dict_lookup d k'.
Proof.
  induction d as [|[k0 v0] d IH]; simpl.
  - destruct (decide (k = k')); reflexivity.
  - destruct (decide (k0 = k)) as [->|Hne]; simpl.
    + rewrite IH. destruct (decide (k = k')); reflexivity.
    + rewrite IH. destruct (decide (k0 = k')) as [->|]; [|reflexivity].
      destruct (decide (k = k')); congruence.
Qed.

Lemma dict_del_set (d : pydict) (k : pykey) (v : pyval) :
  dict_del (dict_set d k v) k = dict_del d k.
Proof.
  induction d as [|[k0 v0] d IH]; simpl.
  - destruct (decide (k = k)); congruence.
  - destruct (decide (k0 = k)) as [->|Hne]; simpl.
    + destruct (decide (k = k)); congruence.
    + destruct (decide (k0 = k)); [congruence|]. by rewrite IH.
Qed.

Lemma dict_lookup_elem (d : pydict) (k : pykey) (v : pyval) :
  dict_lookup d k = Some v → (k, v) ∈ d.
Proof.
  induction d as [|[k0 v0] d IH]; simpl; [done|].
  destruct (decide (k0 = k)) as [->|]; intros H.
  - injection H as ->. left.
  - right. auto.
Qed.

Lemma Forall_dict_set (P : pykey * pyval → Prop) d k v :
  Forall P d → P (k, v) → Forall P (dict_set d k v).
Proof.
  intros Hd Hkv. induction Hd as [|[k0 v0] d H0 Hd IH]; simpl.
  - by constructor.
  - destruct (decide (k0 = k)) as [->|]; by constructor.
Qed.

Lemma Forall_dict_del (P : pykey * pyval → Prop) d k :
  Forall P d → Forall P (dict_del d k).
Proof.
  induction 1 as [|[k0 v0] d H0 Hd IH]; simpl; [constructor|].
  destruct (decide (k0 = k)); [done|by constructor].
Qed.

(** Hashing succeeds exactly on the hashable types. *)
Lemma py_hash_hashable (item : pyval) :
  hashable (type_of item) = true ↔ ∃ k, py_hash item = Ret k.
Proof.
  destruct item; simpl; split; try intros [k Hk]; eauto; discriminate.
Qed.

Lemma py_hash_unhashable (item : pyval) :
  hashable (type_of item) = false ↔ py_hash item = Raise TypeError.
Proof. destruct item; simpl; split; congruence. Qed.

Lemma py_hash_of_key (k : pykey) : py_hash (of_key k) = Ret k.
Proof. by destruct k. Qed.

Lemma py_hash_inv (item : pyval) (k : pykey) :
  py_hash item = Ret k → item = of_key k.
Proof. destruct item; simpl; intros H; inversion H; reflexivity. Qed.

(** Addition raises exactly on the pairs of types it does not accept. *)
Lemma py_add_mismatch (a b : pyval) :
  supports_add (type_of a) (type_of b) = false ↔ py_add a b = Raise TypeError.
Proof. destruct a, b; simpl; split; congruence. Qed.

(** ** add_item *)

Lemma add_item_unhashable now item qty logs w :
  py_hash item = Raise TypeError →
  add_item now item qty logs w =
    (Ret (default [] logs), append_log (add_error_record item) w).
Proof.
  intros Hh. unfold add_item, try_except, data_get, mbind, M_bind, lift.
  rewrite Hh. reflexivity.
Qed.

Lemma add_item_hashable now item qty logs w k :
  py_hash item = Ret k →
  add_item now item qty logs w =
    match py_add (default (PyInt 0) (dict_lookup (data w) k)) qty with
    | Ret v =>
        (Ret (default [] logs ++ [AuditEntry now qty item]),
         append_log (LogRecord INFO "Added %s of %s" [qty; item])
           (set_data (dict_set (data w) k v) w))
    | Raise TypeError =>
        (Ret (default [] logs), append_log (add_error_record item) w)
    | Raise e => (Raise e, w)
    | Outside => (Outside, w)
    end.
Proof.
  intros Hh.
  unfold add_item, try_except, data_get, data_setitem, mbind, M_bind, lift, gets.
  rewrite Hh. simpl.
  destruct (py_add _ qty) as [v|e|]; simpl; [reflexivity| |reflexivity].
  destruct e; reflexivity.
Qed.

(** C4.  When the arguments of [add_item] do not fit (the item is unhashable,
    or [+] does not accept the stored value and the quantity), the call
    returns normally, the dict and everything else is as before, and the
    only trace is one record at level ERROR. *)
Theorem add_item_type_mismatch now item qty logs w :
  type_mismatch (data w) item qty →
  add_item now item qty logs w =
    (Ret (default [] logs), append_log (add_error_record item) w) ∧
  data (append_log (add_error_record item) w) = data w ∧
  level (add_error_record item) = ERROR.
Proof.
  intros Hbad. split; [|done].
  destruct (py_hash item) as [k|e|] eqn:Hh.
  - rewrite (add_item_hashable _ _ _ _ _ k Hh).
    destruct Hbad as [Hu|Ha].
    + apply py_hash_unhashable in Hu. congruence.
    + unfold stored_or_zero in Ha. rewrite Hh in Ha.
      apply py_add_mismatch in Ha. by rewrite Ha.
  - destruct item; simpl in Hh; try discriminate; inversion Hh; subst;
      by apply add_item_unhashable.
  - destruct item; discriminate.
Qed.

Lemma add_item_type_mismatch_witness :
  add_item 0 (PyInt 123) (PyStr "ten") None stocked =
    (Ret [], append_log (add_error_record (PyInt 123)) stocked) ∧
  data (append_log (add_error_record (PyInt 123)) stocked) = data stocked ∧
  level (add_error_record (PyInt 123)) = ERROR.
Proof.
  apply (add_item_type_mismatch 0 (PyInt 123) (PyStr "ten") None stocked).
  right. reflexivity.
Defined.

(** ** get_qty *)

(** C6, as stated, fails: an unhashable item makes [data.get] raise, and
    [get_qty] has no handler. *)
Lemma get_qty_unhashable_raises :
  get_qty (PyList []) empty_world = (Raise TypeError, empty_world).
Proof. reflexivity. Qed.

(** C6, amended.  For every inventory and every hashable item, [get_qty]
    returns the stored quantity when the item is present and 0 when it is
    absent; the call does not fail and changes nothing. *)
Theorem get_qty_hashable item w :
  hashable (type_of item) = true →
  ∃ k, py_hash item = Ret k ∧
       get_qty item w =
         (Ret (match dict_lookup (data w) k with
               | Some quantity => quantity
               | None => PyInt 0
               end), w).
Proof.
  intros Hh. apply py_hash_hashable in Hh as [k Hk]. exists k. split; [done|].
  unfold get_qty, data_get, mbind, M_bind, lift. rewrite Hk. simpl.
  by destruct (dict_lookup (data w) k).
Qed.

Lemma get_qty_hashable_witness :
  ∃ k, py_hash (PyStr "apple") = Ret k ∧
       get_qty (PyStr "apple") stocked =
         (Ret (match dict_lookup (data stocked) k with
               | Some quantity => quantity
               | None => PyInt 0
               end), stocked).
Proof. apply (get_qty_hashable (PyStr "apple") stocked). reflexivity. Defined.

(** On the other items the call raises [TypeError] and changes nothing. *)
Lemma get_qty_unhashable item w :
  hashable (type_of item) = false → get_qty item w = (Raise TypeError, w).
Proof.
  intros Hh. apply py_hash_unhashable in Hh.
  unfold get_qty, data_get, mbind, M_bind, lift. by rewrite Hh.
Qed.

(** ** remove_item *)

(** C9.  When [item in data] is false, [remove_item] returns normally, logs
    one WARNING record and leaves the dict (and the rest of the world) as it
    was, whatever [qty] is. *)
Theorem remove_item_absent item qty w :
  data_contains item w = (Ret false, w) →
  remove_item item qty w = (Ret (), append_log (remove_warning_record item) w) ∧
  data (append_log (remove_warning_record item) w) = data w ∧
  level (remove_warning_record item) = WARNING.
Proof.
  intros Habs. split; [|done].
  unfold remove_item, try_except, mbind at 1, M_bind at 1.
  rewrite Habs. reflexivity.
Qed.

Lemma remove_item_absent_witness :
  remove_item (PyStr "orange") (PyInt 1) stocked =
    (Ret (), append_log (remove_warning_record (PyStr "orange")) stocked) ∧
  data (append_log (remove_warning_record (PyStr "orange")) stocked) = data stocked ∧
  level (remove_warning_record (PyStr "orange")) = WARNING.
Proof.
  apply (remove_item_absent (PyStr "orange") (PyInt 1) stocked). reflexivity.
Defined.

Lemma data_contains_false item w :
  data_contains item w = (Ret false, w) ↔
  ∃ k, py_hash item = Ret k ∧ dict_lookup (data w) k = None.
Proof.
  unfold data_contains, mbind, M_bind, lift. split.
  - destruct (py_hash item) as [k|e|] eqn:Hh; simpl; [|done..].
    intros H. exists k. split; [done|].
    destruct (dict_lookup (data w) k) eqn:Hl; [|done].
    rewrite bool_decide_eq_true_2 in H; [discriminate|eauto].
  - intros (k & -> & Hl). simpl. rewrite Hl.
    rewrite bool_decide_eq_false_2; [done|]. by intros [? ?].
Qed.

(** The three ways a call of [remove_item] on a hashable item goes. *)
Lemma remove_item_hashable item qty w k :
  py_hash item = Ret k →
  remove_item item qty w =
    match dict_lookup (data w) k with
    | None => (Ret (), append_log (remove_warning_record item) w)
    | Some cur =>
        match py_sub cur qty with
        | Ret v =>
            match py_le v (PyInt 0) with
            | Ret true =>
                (Ret (), append_log (LogRecord INFO "Removed %s of %s" [qty; item])
                           (set_data (dict_del (dict_set (data w) k v) k) w))
            | Ret false =>
                (Ret (), append_log (LogRecord INFO "Removed %s of %s" [qty; item])
                           (set_data (dict_set (data w) k v) w))
            | Raise TypeError =>
                (Ret (), append_log (remove_error_record item)
                           (set_data (dict_set (data w) k v) w))
            | Raise e => (Raise e, set_data (dict_set (data w) k v) w)
            | Outside => (Outside, set_data (dict_set (data w) k v) w)
            end
        | Raise TypeError => (Ret (), append_log (remove_error_record item) w)
        | Raise e => (Raise e, w)
        | Outside => (Outside, w)
        end
    end.
Proof.
  intros Hh.
  unfold remove_item, try_except, data_contains, data_getitem, data_setitem,
    data_delitem, mbind, M_bind, lift, gets, modify.
  rewrite Hh. simpl.
  destruct (dict_lookup (data w) k) as [cur|] eqn:Hl; simpl.
  - rewrite ?Hl. simpl.
    destruct (py_sub cur qty) as [v|e|]; simpl; [|by destruct e|done].
    rewrite dict_lookup_set. destruct (decide (k = k)); [|done]. simpl.
    destruct (py_le v (PyInt 0)) as [[]|e'|]; simpl; [| |by destruct e'|done].
    + rewrite dict_lookup_set. destruct (decide (k = k)); [|done]. reflexivity.
    + reflexivity.
  - reflexivity.
Qed.

Lemma remove_item_unhashable item qty w :
  py_hash item = Raise TypeError →
  remove_item item qty w = (Ret (), append_log (remove_error_record item) w).
Proof.
  intros Hh. unfold remove_item, try_except, data_contains, mbind, M_bind, lift.
  by rewrite Hh.
Qed.

(** ** check_low_items *)

Lemma low_items_int (d : pydict) (t : Z) :
  int_valued d → low_items d (PyInt t) = Ret (low_stock d t).
Proof.
  unfold low_stock. induction 1 as [|[k v] d Hv Hd IH]; [reflexivity|].
  simpl in Hv. destruct v; try discriminate. simpl. rewrite IH. simpl.
  destruct (decide (qty_below t (k, PyInt z))) as [Hlt|Hge].
  - rewrite filter_cons_True by done. unfold qty_below in Hlt; simpl in Hlt.
    rewrite (proj2 (Z.ltb_lt _ _) Hlt). reflexivity.
  - rewrite filter_cons_False by done. unfold qty_below in Hge; simpl in Hge.
    rewrite (proj2 (Z.ltb_ge _ _)) by lia. reflexivity.
Qed.

(** C7, as stated, fails: the comparison [quantity < threshold] has no
    handler, so a threshold that is not a number on an inventory of integers,
    or a quantity that is not a number under the default threshold, makes
    the call raise [TypeError]. *)
Lemma check_low_items_raises_on_other_types :
  check_low_items (Some (PyStr "five")) stocked = (Raise TypeError, stocked) ∧
  check_low_items None labelled = (Raise TypeError, labelled).
Proof. split; reflexivity. Qed.

(** C7, amended.  On an inventory of integer quantities and for every
    integer threshold [t] (5 when it is left out), [check_low_items] returns
    the items whose quantity is strictly below [t], in the order of the dict;
    it does not fail and changes nothing. *)
Theorem check_low_items_spec (threshold : option Z) w :
  int_valued (data w) →
  check_low_items (PyInt <$> threshold) w =
    (Ret (low_stock (data w) (default 5 threshold)), w).
Proof.
  intros Hint. unfold check_low_items, mbind, M_bind, gets, lift.
  destruct threshold as [t|]; simpl; by rewrite low_items_int.
Qed.

Lemma check_low_items_spec_witness :
  check_low_items (PyInt <$> None) stocked =
    (Ret (low_stock (data stocked) (default 5 None)), stocked).
Proof.
  apply (check_low_items_spec None stocked).
  repeat constructor.
Defined.

(** The demonstration sequence of [main], run on a machine with no file:
    what it leaves in the dict, on standard output and on disk. *)
Example main_demo t1 t2 t3 :
  let (r, w) := main t1 t2 t3 empty_world in
  r = Ret () ∧
  data w = [(KStr "apple", PyInt 7); (KStr "banana", PyInt 2)] ∧
  stdout w =
    [FString "Apple stock: {}" [PyInt 7];
     FString "Low items: {}" [PyList [PyStr "banana"]];
     Text (nl +:+ "--- Items Report ---");
     FString "{} -> {}" [PyStr "apple"; PyInt 7];
     FString "{} -> {}" [PyStr "banana"; PyInt 2];
     Text ("--------------------" +:+ nl)] ∧
  disk w !! default_file = Some (json_dumps (PyDict (data w))).
Proof. vm_compute. repeat split. Qed.

Example check_low_items_demo :
  check_low_items None stocked = (Ret [PyStr "banana"], stocked).
Proof. reflexivity. Qed.

(** ** The queries leave the dict alone *)

Lemma print_items_ret entries w :
  ∃ w', print_items entries w = (Ret (), w') ∧ data w' = data w.
Proof.
  revert w. induction entries as [|[k v] rest IH]; intros w; [by exists w|].
  simpl. unfold mbind, M_bind, print, modify.
  destruct (IH (World (data w) (logged w) (stdout w ++ [FString "{} -> {}" [of_key k; v]]) (disk w)))
    as (w' & -> & Hd).
  by exists w'.
Qed.

(** C10.  [get_qty], [check_low_items] and [print_data] end with the dict
    they started with, for every state and every argument, also when they
    raise. *)
Theorem queries_preserve_data w :
  (∀ item, data (get_qty item w).2 = data w) ∧
  (∀ threshold, data (check_low_items threshold w).2 = data w) ∧
  data (print_data w).2 = data w.
Proof.
  split; [|split].
  - intros item. unfold get_qty, data_get, mbind, M_bind, lift, gets.
    by destruct (py_hash item).
  - intros threshold. unfold check_low_items, mbind, M_bind, lift, gets. simpl.
    by destruct (low_items (data w) (default (PyInt 5) threshold)).
  - unfold print_data, mbind at 1, M_bind at 1. unfold print at 1, modify at 1.
    unfold mbind at 1, M_bind at 1, gets. cbn beta iota.
    set (w1 := World _ _ _ _).
    change (data w1) with (data w).
    assert (∃ w2, match data w with
                  | [] => print (Text "Inventory is empty.")
                  | _ :: _ => print_items (data w)
                  end w1 = (Ret (), w2) ∧ data w2 = data w) as (w2 & Hp & Hw2).
    { destruct (data w) as [|e rest] eqn:Hd.
      - eexists. split; [reflexivity|]. simpl. done.
      - destruct (print_items_ret (e :: rest) w1) as (w' & Hp & Hw').
        exists w'. split; [done|]. rewrite Hw'. subst w1. simpl. done. }
    unfold mbind, M_bind. rewrite Hp. simpl. done.
Qed.

(** ** The quantities an inventory holds *)

Lemma all_positive_lookup d k v :
  all_positive d → dict_lookup d k = Some v → ∃ q, v = PyInt q ∧ 0 < q.
Proof.
  intros Hd Hl. apply dict_lookup_elem in Hl.
  unfold all_positive in Hd. rewrite Forall_forall in Hd.
  exact (Hd _ Hl).
Qed.

Lemma add_item_all_positive now item qty logs w :
  (∀ q, qty = PyInt q → 0 < q) →
  all_positive (data w) → all_positive (data (add_item now item qty logs w).2).
Proof.
  intros Hq Hpos. destruct (py_hash item) as [k|e|] eqn:Hh.
  - rewrite (add_item_hashable _ _ _ _ _ k Hh).
    assert (∃ c, default (PyInt 0) (dict_lookup (data w) k) = PyInt c ∧ 0 <= c)
      as (c & -> & Hc).
    { destruct (dict_lookup (data w) k) as [v|] eqn:Hl; simpl.
      - destruct (all_positive_lookup _ _ _ Hpos Hl) as (c & -> & ?).
        exists c. split; [done|lia].
      - by exists 0. }
    destruct qty as [|q| | |]; simpl; try done.
    apply Forall_dict_set; [done|]. exists (c + q). split; [done|].
    specialize (Hq q eq_refl). lia.
  - destruct item; simpl in Hh; try discriminate; inversion Hh; subst;
      by rewrite add_item_unhashable.
  - destruct item; discriminate.
Qed.

Lemma remove_item_all_positive item qty w :
  all_positive (data w) → all_positive (data (remove_item item qty w).2).
Proof.
  intros Hpos. destruct (py_hash item) as [k|e|] eqn:Hh.
  - rewrite (remove_item_hashable _ _ _ k Hh).
    destruct (dict_lookup (data w) k) as [cur|] eqn:Hl; [|done].
    destruct (all_positive_lookup _ _ _ Hpos Hl) as (c & -> & Hc).
    destruct qty as [|q| | |]; simpl; try done.
    destruct (Z.leb_spec (c - q) 0); simpl.
    + rewrite dict_del_set. by apply Forall_dict_del.
    + apply Forall_dict_set; [done|]. by exists (c - q).
  - destruct item; simpl in Hh; try discriminate; inversion Hh; subst;
      by rewrite remove_item_unhashable.
  - destruct item; discriminate.
Qed.

Lemma run_all_positive cs w :
  Forall adds_positive cs → all_positive (data w) → all_positive (data (run cs w)).
Proof.
  intros Hcs. revert w. induction Hcs as [|c cs Hc Hcs IH]; intros w Hw; [done|].
  simpl. apply IH. destruct c; simpl.
  - by apply add_item_all_positive.
  - by apply remove_item_all_positive.
Qed.










(** ** The running total *)

Lemma tracks_get_qty w k t :
  tracks (data w) k t → get_qty (of_key k) w = (Ret (PyInt t), w).
Proof.
  intros [Ht Hl]. unfold get_qty, data_get, mbind, M_bind, lift, gets.
  rewrite py_hash_of_key. simpl. rewrite Hl.
  destruct (decide (t = 0)) as [->|]; reflexivity.
Qed.

(** A call on another key does not touch the entry of [k]. *)
Lemma run_call_other c w k :
  names match c with AddItem _ item _ _ | RemoveItem item _ => item end k = false →
  dict_lookup (data (run_call c w)) k = dict_lookup (data w) k.
Proof.
  unfold names. destruct c as [now item qty logs|item qty]; simpl;
    destruct (py_hash item) as [k'|e|] eqn:Hh; intros Hne.
  - apply bool_decide_eq_false in Hne.
    rewrite (add_item_hashable _ _ _ _ _ k' Hh).
    destruct (py_add _ qty) as [v|[]|]; simpl; try done.
    rewrite dict_lookup_set. by destruct (decide (k' = k)).
  - destruct item; simpl in Hh; try discriminate; inversion Hh; subst;
      by rewrite add_item_unhashable.
  - destruct item; discriminate.
  - apply bool_decide_eq_false in Hne.
    rewrite (remove_item_hashable _ _ _ k' Hh).
    destruct (dict_lookup (data w) k') as [cur|]; [|done].
    destruct (py_sub cur qty) as [v|[]|]; simpl; try done.
    destruct (py_le v (PyInt 0)) as [[]|[]|]; simpl;
      rewrite ?dict_lookup_del, ?dict_lookup_set;
      by destruct (decide (k' = k)).
  - destruct item; simpl in Hh; try discriminate; inversion Hh; subst;
      by rewrite remove_item_unhashable.
  - destruct item; discriminate.
Qed.

Lemma run_call_tracks c w k t :
  stocking_call c → tracks (data w) k t →
  tracks (data (run_call c w)) k (tally k t c).
Proof.
  intros Hc [Ht Hl].
  destruct c as [now item qty logs|item qty]; simpl in Hc;
    destruct Hc as (Hh & q & -> & Hq); simpl tally;
    destruct (names item k) eqn:Hn;
    try (split; [done|]; rewrite run_call_other by done; done);
    unfold names in Hn; destruct (py_hash item) as [k'|e|] eqn:Hk; try done;
    apply bool_decide_eq_true in Hn; subst k'; simpl run_call.
  - rewrite (add_item_hashable _ _ _ _ _ k Hk), Hl.
    unfold clamp. destruct (Z.leb_spec (t + q) 0); [lia|].
    split; [lia|].
    destruct (decide (t = 0)) as [->|]; simpl;
      rewrite dict_lookup_set; destruct (decide (k = k)); try done;
      destruct (decide (_ = 0)); try lia; done.
  - rewrite (remove_item_hashable _ _ _ k Hk), Hl. unfold clamp.
    destruct (decide (t = 0)) as [->|Hne]; simpl.
    + destruct (Z.leb_spec (0 - q) 0); [|lia]. by split.
    + destruct (Z.leb_spec (t - q) 0); simpl.
      * split; [done|]. rewrite dict_lookup_del. by destruct (decide (k = k)).
      * split; [lia|]. rewrite dict_lookup_set.
        destruct (decide (k = k)); [|done].
        destruct (decide (t - q = 0)); [lia|done].
Qed.

Lemma run_tracks cs w k t :
  Forall stocking_call cs → tracks (data w) k t →
  tracks (data (run cs w)) k (fold_left (tally k) cs t).
Proof.
  intros Hcs. revert w t.
  induction Hcs as [|c cs Hc Hcs IH]; intros w t Hw; [done|].
  simpl. apply IH. by apply run_call_tracks.
Qed.

(** C2, as stated, fails: after [add_item] of -5 on the empty inventory the
    clamped total of the item is 0, yet the dict holds -5 for it and
    [get_qty] answers -5. *)
Lemma negative_add_not_clamped :
  Forall numeric_call overdrawn_calls ∧
  running_total (KStr "apple") overdrawn_calls = 0 ∧
  dict_lookup (data (run overdrawn_calls empty_world)) (KStr "apple") =
    Some (PyInt (-5)) ∧
  (get_qty (PyStr "apple") (run overdrawn_calls empty_world)).1 = Ret (PyInt (-5)).
Proof. split; [by repeat constructor|]. repeat split. Qed.

(** C2, amended.  For every sequence of [add_item] calls with integer
    quantities of at least 1 and [remove_item] calls with integer quantities
    of at least 0, applied to an empty inventory, and for every item: the
    item is absent when its clamped running total is 0 and holds that total
    otherwise, and [get_qty] answers the total. *)
Theorem final_quantity_is_running_total cs w0 k :
  data w0 = [] → Forall stocking_call cs →
  0 <= running_total k cs ∧
  dict_lookup (data (run cs w0)) k =
    (if decide (running_total k cs = 0) then None
     else Some (PyInt (running_total k cs))) ∧
  get_qty (of_key k) (run cs w0) = (Ret (PyInt (running_total k cs)), run cs w0).
Proof.
  intros Hw0 Hcs.
  assert (tracks (data (run cs w0)) k (running_total k cs)) as Htr.
  { apply run_tracks; [done|]. rewrite Hw0. by split. }
  split; [apply Htr|]. split; [apply Htr|]. by apply tracks_get_qty.
Qed.

Lemma final_quantity_is_running_total_witness :
  0 <= running_total (KStr "apple") (stocking_calls ++ [RemoveItem (PyStr "apple") (PyInt 3)]) ∧
  dict_lookup (data (run (stocking_calls ++ [RemoveItem (PyStr "apple") (PyInt 3)]) empty_world))
    (KStr "apple") = Some (PyInt 7) ∧
  get_qty (PyStr "apple") (run (stocking_calls ++ [RemoveItem (PyStr "apple") (PyInt 3)]) empty_world) =
    (Ret (PyInt 7), run (stocking_calls ++ [RemoveItem (PyStr "apple") (PyInt 3)]) empty_world).
Proof.
  apply (final_quantity_is_running_total
           (stocking_calls ++ [RemoveItem (PyStr "apple") (PyInt 3)])
           empty_world (KStr "apple")).
  - reflexivity.
  - repeat constructor; simpl; eexists; (split; [reflexivity|lia]).
Defined.

(** ** load_data on a missing or malformed file *)

(** C5.  When no file exists at the path, [load_data] returns an empty dict
    and logs one WARNING record; when the file exists and [json.load] raises
    [JSONDecodeError] on its text, [load_data] returns an empty dict and logs
    an ERROR record (after the INFO record written before parsing).  In both
    cases the call returns normally and nothing else changes. *)
Theorem load_data_recovers file w :
  (disk w !! default default_file file = None →
   load_data file w =
     (Ret (PyDict []),
      append_log (load_warning_record (default default_file file)) w)) ∧
  (∀ text,
     disk w !! default default_file file = Some text →
     json_loads text = Raise JSONDecodeError →
     load_data file w =
       (Ret (PyDict []),
        append_log (load_error_record (default default_file file))
          (append_log (load_info_record (default default_file file)) w))).
Proof.
  split.
  - intros Hnone. unfold load_data, try_except, open_read, mbind, M_bind, gets, lift.
    simpl. rewrite Hnone. reflexivity.
  - intros text Hsome Hbad.
    unfold load_data, try_except, open_read, mbind, M_bind, gets, lift.
    simpl. rewrite Hsome. simpl. rewrite Hbad. reflexivity.
Qed.

Lemma load_data_recovers_witness :
  load_data None empty_world =
    (Ret (PyDict []), append_log (load_warning_record default_file) empty_world) ∧
  load_data None corrupted =
    (Ret (PyDict []),
     append_log (load_error_record default_file)
       (append_log (load_info_record default_file) corrupted)).
Proof.
  split.
  - apply (proj1 (load_data_recovers None empty_world)). reflexivity.
  - apply (proj2 (load_data_recovers None corrupted) truncated_json); reflexivity.
Defined.

Example load_data_plain_text :
  json_loads "hello" = Raise JSONDecodeError ∧
  json_loads truncated_json = Raise JSONDecodeError ∧
  json_loads "" = Raise JSONDecodeError.
Proof. repeat split. Qed.

(** ** The JSON text of an inventory reads back *)

#[local] Arguments String.append !s1 s2 / : simpl nomatch.

Lemma append_assoc (a b c : string) : (a +:+ b) +:+ c = a +:+ (b +:+ c).
Proof. induction a as [|x a IH]; simpl; [reflexivity|by rewrite IH]. Qed.

Lemma length_append (a b : string) :
  String.length (a +:+ b) = (String.length a + String.length b)%nat.
Proof. induction a as [|x a IH]; simpl; [reflexivity|by rewrite IH]. Qed.

Lemma skip_ws_spaces n s : skip_ws (spaces n +:+ s) = skip_ws s.
Proof. induction n as [|n IH]; simpl; [reflexivity|exact IH]. Qed.

Lemma skip_ws_newline_indent level s :
  skip_ws (newline_indent level +:+ s) = skip_ws s.
Proof. unfold newline_indent. simpl. apply skip_ws_spaces. Qed.

Lemma scanstring_escape_char c s :
  scanstring (escape_char c +:+ s) = prepend c (scanstring s).
Proof.
  destruct c as [[] [] [] [] [] [] [] []]; reflexivity.
Qed.

Lemma scanstring_escape k rest :
  scanstring (escape k +:+ String dq rest) = Ret (k, rest).
Proof.
  induction k as [|c k IH]; [reflexivity|].
  change (escape (String c k)) with (escape_char c +:+ escape k).
  by rewrite append_assoc, scanstring_escape_char, IH.
Qed.

Lemma encode_str_append k rest :
  encode_str k +:+ rest = String dq (escape k +:+ String dq rest).
Proof. unfold encode_str. simpl. by rewrite append_assoc. Qed.

Lemma number_stop_scan rest : number_stop rest → scan_digits rest = (Nil, rest).
Proof. destruct rest as [|c r]; [done|]. by intros [->| ->]. Qed.

Lemma number_stop_float rest : number_stop rest → float_follows rest = false.
Proof.
  destruct rest as [|c r]; [done|].
  intros [->| ->]; simpl; by destruct r.
Qed.

Lemma scan_digits_digits u rest :
  number_stop rest → scan_digits (digits u +:+ rest) = (u, rest).
Proof.
  intros Hstop. induction u; simpl; rewrite ?IHu; try reflexivity.
  by apply number_stop_scan.
Qed.

Lemma match_int_digits u rest :
  canonical u → number_stop rest → match_int (digits u +:+ rest) = Some (u, rest).
Proof.
  intros Hu Hstop.
  destruct u; simpl in *; try done;
    try (by rewrite scan_digits_digits).
  destruct u; try done.
Qed.

Lemma canonical_unorm u : canonical (unorm u).
Proof. induction u; simpl; try done. Qed.

Lemma canonical_to_uint p : canonical (Pos.to_uint p).
Proof.
  pose proof (DecimalPos.Unsigned.to_of (Pos.to_uint p)) as H.
  rewrite DecimalPos.Unsigned.of_to in H. simpl in H.
  rewrite H. apply canonical_unorm.
Qed.

Lemma canonical_to_int z :
  match Z.to_int z with Pos u | Neg u => canonical u end.
Proof. destruct z; simpl; try done; apply canonical_to_uint. Qed.

Lemma match_number_digits u rest :
  canonical u → number_stop rest →
  match_number (digits u +:+ rest) = Ret (PyInt (Z.of_int (Pos u)), rest).
Proof.
  intros Hu Hstop. unfold match_number.
  replace (match digits u +:+ rest with
           | String "-"%char r => (true, r)
           | _ => (false, digits u +:+ rest)
           end) with (false, digits u +:+ rest) by (destruct u; done).
  by rewrite match_int_digits, number_stop_float.
Qed.

Lemma scan_once_encode_int fuel z rest :
  number_stop rest →
  scan_once (S fuel) (encode_int z +:+ rest) = Ret (PyInt z, rest).
Proof.
  intros Hstop. unfold encode_int.
  pose proof (canonical_to_int z) as Hcan.
  pose proof (DecimalZ.of_to z) as Hz.
  destruct (Z.to_int z) as [u|u].
  - rewrite <- Hz, <- (match_number_digits u rest) by done.
    destruct u; done.
  - simpl String.append. cbn [scan_once scan_value].
    assert (starts_with "Infinity" (digits u +:+ rest) = false) as ->
      by (destruct u; done).
    unfold match_number.
    rewrite match_int_digits, number_stop_float by done. by rewrite Hz.
Qed.

Lemma skip_ws_encode_int z rest :
  skip_ws (encode_int z +:+ rest) = encode_int z +:+ rest.
Proof.
  unfold encode_int. pose proof (canonical_to_int z) as Hcan.
  destruct (Z.to_int z) as [u|u]; [|reflexivity].
  destruct u; done.
Qed.

Lemma number_stop_entries enc d : number_stop (entries_text enc 0 d).
Proof. destruct d as [|[k v] d]; simpl; auto. Qed.

Lemma entries_text_length enc level d :
  (length d ≤ String.length (entries_text enc level d))%nat.
Proof.
  induction d as [|[k v] d IH]; simpl; [lia|].
  rewrite !length_append. simpl. rewrite length_append. lia.
Qed.

Lemma skip_ws_encode_str k rest :
  skip_ws (encode_str k +:+ rest) = encode_str k +:+ rest.
Proof. reflexivity. Qed.

Lemma skip_ws_colon rest :
  skip_ws (": " +:+ rest) = String ":" (" " +:+ rest).
Proof. reflexivity. Qed.

Lemma skip_ws_space rest : skip_ws (" " +:+ rest) = skip_ws rest.
Proof. reflexivity. Qed.

Lemma skip_ws_comma rest : skip_ws ("," +:+ rest) = String "," rest.
Proof. reflexivity. Qed.

Lemma bind_ret {A B} (a : A) (f : A → outcome B) : (Ret a ≫= f) = f a.
Proof. reflexivity. Qed.

Lemma entries_text_nil enc level :
  entries_text enc level [] = newline_indent level +:+ "}".
Proof. reflexivity. Qed.

Lemma entries_text_cons enc level k y d :
  entries_text enc level ((k, y) :: d) =
  "," +:+ newline_indent (S level) +:+ encode_key k +:+ ": " +:+ enc y +:+
  entries_text enc level d.
Proof. reflexivity. Qed.

(** One turn of the loop over the members of an object. *)
Lemma parse_members_eq fuel r acc :
  parse_members (S fuel) (String dq r) acc =
  scanstring r ≫= λ '(key, r1),
    match skip_ws r1 with
    | String ":"%char r2 =>
        scan_once fuel (skip_ws r2) ≫= λ '(val, r3),
          match skip_ws r3 with
          | String "}"%char r4 => Ret (PyDict (dict_set acc (KStr key) val), r4)
          | String ","%char r4 =>
              parse_members fuel (skip_ws r4) (dict_set acc (KStr key) val)
          | _ => Raise JSONDecodeError
          end
    | _ => Raise JSONDecodeError
    end.
Proof. reflexivity. Qed.

(** The decoder on the text of one entry and of those after it. *)
Lemma parse_members_entries d : ∀ k v acc fuel,
  Forall str_int_entry d → (length d + 2 ≤ fuel)%nat →
  parse_members fuel
    (encode_str k +:+ ": " +:+ encode_int v +:+ entries_text (json_encode 1) 0 d) acc =
  Ret (PyDict (dict_update (dict_set acc (KStr k) (PyInt v)) d), EmptyString).
Proof.
  induction d as [|e d IH]; intros k v acc fuel Hd Hfuel;
    (destruct fuel as [|[|fuel]]; [simpl in Hfuel; lia..|]);
    rewrite encode_str_append, parse_members_eq, scanstring_escape, bind_ret;
    cbv beta iota; rewrite skip_ws_colon; cbv beta iota;
    rewrite skip_ws_space, skip_ws_encode_int,
      (scan_once_encode_int _ _ _ (number_stop_entries _ _)), bind_ret;
    cbv beta iota.
  - rewrite entries_text_nil, skip_ws_newline_indent. reflexivity.
  - inversion Hd as [|? ? (s & q & ->) Hd']; subst.
    rewrite entries_text_cons, skip_ws_comma. cbv beta iota.
    rewrite skip_ws_newline_indent.
    change (encode_key (KStr s)) with (encode_str s).
    change (json_encode 1 (PyInt q)) with (encode_int q).
    rewrite skip_ws_encode_str.
    rewrite IH; [reflexivity|done|simpl in *; lia].
Qed.

Lemma dict_set_fresh (acc : pydict) k v :
  k ∉ dict_keys acc → dict_set acc k v = acc ++ [(k, v)].
Proof.
  unfold dict_keys. induction acc as [|[k0 v0] acc IH]; simpl; [done|].
  intros Hk. apply not_elem_of_cons in Hk as [Hne Hk].
  destruct (decide (k0 = k)); [congruence|]. by rewrite IH.
Qed.

Lemma dict_update_nodup (d acc : pydict) :
  NoDup (dict_keys (acc ++ d)) → dict_update acc d = acc ++ d.
Proof.
  unfold dict_update, dict_keys. revert acc.
  induction d as [|[k v] d IH]; intros acc Hnd; simpl.
  - by rewrite app_nil_r.
  - rewrite dict_set_fresh.
    + rewrite IH; rewrite <- app_assoc; done.
    + rewrite fmap_app in Hnd. apply NoDup_app in Hnd as (_ & Hdisj & _).
      intros Hin. apply (Hdisj _ Hin). simpl. left.
Qed.

Lemma scan_once_object fuel r r' :
  skip_ws r = r' → (∀ x, r' ≠ String "}" x) →
  scan_once (S fuel) (String "{" r) = parse_members fuel r' [].
Proof.
  intros <- Hopen. cbn [scan_once scan_value].
  destruct (skip_ws r) as [|c x]; [reflexivity|].
  destruct c as [[] [] [] [] [] [] [] []]; try reflexivity.
  by destruct (Hopen x).
Qed.

(** The decoder gives back every inventory of the persisted form. *)
Lemma json_loads_dumps d :
  str_int_inventory d → json_loads (json_dumps (PyDict d)) = Ret (PyDict d).
Proof.
  intros [Hwf Hd]. destruct d as [|e d]; [reflexivity|].
  inversion Hd as [|? ? (s & q & ->) Hd']; subst.
  unfold json_loads, json_dumps.
  set (body := encode_str s +:+ ": " +:+ encode_int q +:+
               entries_text (json_encode 1) 0 d).
  change (json_encode 0 (PyDict ((KStr s, PyInt q) :: d)))
    with ("{" +:+ newline_indent 1 +:+ body).
  assert (Hlen : (length d + 2 ≤ 2 * String.length ("{" +:+ newline_indent 1 +:+ body))%nat).
  { subst body. simpl String.length. rewrite !length_append. simpl String.length.
    rewrite length_append.
    pose proof (entries_text_length (json_encode 1) 0 d). lia. }
  change (skip_ws ("{" +:+ newline_indent 1 +:+ body))
    with (String "{" (newline_indent 1 +:+ body)).
  rewrite (scan_once_object _ _ body).
  - subst body. rewrite parse_members_entries by done.
    rewrite bind_ret. cbv beta iota. cbn [skip_ws].
    change (dict_set [] (KStr s) (PyInt q)) with [(KStr s, PyInt q)].
    by rewrite (dict_update_nodup d [(KStr s, PyInt q)]).
  - by rewrite skip_ws_newline_indent.
  - intros x. subst body. by rewrite encode_str_append.
Qed.

(** What [save_data] leaves: the file holds the text of the dict, and one
    INFO record is logged. *)
Lemma save_data_eq file w :
  save_data file w =
    (Ret (),
     append_log
       (LogRecord INFO "Inventory data saved successfully to %s."
          [PyStr (default default_file file)])
       (set_disk
          (<[default default_file file := json_dumps (PyDict (data w))]> (disk w)) w)).
Proof.
  unfold save_data, open_write, file_write, mbind, M_bind, gets, modify, logging.
  simpl. rewrite lookup_insert_eq. simpl. rewrite insert_insert_eq. reflexivity.
Qed.

(** C3.  For every inventory with string keys and integer values and for
    every path, [save_data] to the path returns normally and leaves the dict
    as it was, and [load_data] from the same path then returns a dict equal
    to the inventory, entry for entry and in the same order. *)
Theorem save_load_roundtrip file w :
  str_int_inventory (data w) →
  ∃ w1,
    save_data file w = (Ret (), w1) ∧ data w1 = data w ∧
    load_data file w1 =
      (Ret (PyDict (data w)),
       append_log (load_info_record (default default_file file)) w1).
Proof.
  intros Hinv. eexists. split; [apply save_data_eq|]. split; [reflexivity|].
  unfold load_data, try_except, open_read, mbind, M_bind, gets, lift, logging, modify.
  simpl. rewrite lookup_insert_eq. simpl.
  rewrite json_loads_dumps by done. reflexivity.
Qed.

Lemma stocked_str_int : str_int_inventory (data stocked).
Proof.
  split.
  - unfold dict_wf. apply (bool_decide_unpack _). vm_compute. exact I.
  - repeat constructor; eexists _, _; reflexivity.
Defined.

Lemma save_load_roundtrip_witness :
  ∃ w1,
    save_data (Some "stock.json") stocked = (Ret (), w1) ∧ data w1 = data stocked ∧
    load_data (Some "stock.json") w1 =
      (Ret (PyDict (data stocked)),
       append_log (load_info_record "stock.json") w1).
Proof.
  apply (save_load_roundtrip (Some "stock.json") stocked). exact stocked_str_int.
Defined.

(** ** The decoder's fuel *)

Lemma skip_ws_length s : (String.length (skip_ws s) ≤ String.length s)%nat.
Proof.
  induction s as [|c s IH]; simpl; [lia|].
  destruct (is_ws c); simpl; lia.
Qed.

Lemma prepend_ret c o k r :
  prepend c o = Ret (k, r) → ∃ k', o = Ret (k', r).
Proof.
  unfold prepend. destruct o as [[k' r']|e|]; simpl; [|done..].
  intros [= <- <-]. by exists k'.
Qed.

(** A string literal ends strictly before the input does. *)
Lemma scanstring_length n : ∀ s k r,
  (String.length s ≤ n)%nat →
  scanstring s = Ret (k, r) → (String.length r < String.length s)%nat.
Proof.
  induction n as [|n IH]; intros s k r Hn Hs.
  { destruct s; [done|simpl in Hn; lia]. }
  assert (∀ c s' k r, (String.length s' ≤ n)%nat →
            prepend c (scanstring s') = Ret (k, r) →
            (String.length r < S (String.length s'))%nat) as Hpre.
  { intros c s' k0 r0 Hlen Hp. apply prepend_ret in Hp as [k' Hk'].
    specialize (IH _ _ _ Hlen Hk'). lia. }
  destruct s as [|c s]; [done|]. simpl in Hn.
  destruct c as [[] [] [] [] [] [] [] []]; simpl in Hs |- *;
    try discriminate;
    try (eapply Hpre; [|exact Hs]; lia);
    try (injection Hs as <- <-; lia).
  destruct s as [|e s]; [done|]. simpl in Hn.
  destruct e as [[] [] [] [] [] [] [] []]; simpl in Hs |- *;
    try discriminate;
    try (eapply Nat.lt_lt_succ_r, Hpre; [|exact Hs]; lia).
  destruct s as [|h1 [|h2 [|h3 [|h4 s]]]]; try discriminate.
  simpl in Hn |- *.
  destruct (hex4 h1 h2 h3 h4) as [m|]; [|discriminate].
  destruct (m <? 256)%N; [|discriminate].
  assert (String.length r < S (String.length s))%nat
    by (eapply Hpre; [|exact Hs]; lia).
  lia.
Qed.

Lemma scan_digits_length s :
  (String.length (scan_digits s).2 ≤ String.length s)%nat.
Proof.
  induction s as [|c s IH]; simpl; [lia|].
  destruct (digit_of c); simpl; [|lia].
  destruct (scan_digits s); simpl in *. lia.
Qed.

Lemma match_int_length s u r :
  match_int s = Some (u, r) → (String.length r < String.length s)%nat.
Proof.
  destruct s as [|c s]; [done|].
  pose proof (scan_digits_length s) as Hd.
  unfold match_int.
  destruct c as [[] [] [] [] [] [] [] []]; simpl;
    try discriminate;
    try (intros [= <- <-]; lia);
    destruct (scan_digits s); simpl in Hd; intros [= <- <-]; lia.
Qed.

Lemma match_number_length s v r :
  match_number s = Ret (v, r) → (String.length r < String.length s)%nat.
Proof.
  unfold match_number.
  assert (∀ s1 (neg : bool), (String.length s1 ≤ String.length s)%nat →
            match match_int s1 with
            | Some (u, r0) =>
                if float_follows r0 then Outside
                else Ret (PyInt (Z.of_int (if neg then Neg u else Pos u)), r0)
            | None => Raise JSONDecodeError
            end = Ret (v, r) → (String.length r < String.length s)%nat) as Hgen.
  { intros s1 neg Hlen. destruct (match_int s1) as [[u r0]|] eqn:Hm; [|done].
    apply match_int_length in Hm. destruct (float_follows r0); [done|].
    intros [= <- <-]. lia. }
  destruct s as [|c s]; [done|].
  destruct c as [[] [] [] [] [] [] [] []];
    first [apply (Hgen _ false)|apply (Hgen _ true)]; simpl; lia.
Qed.

Lemma expect_length lit : ∀ s r,
  expect lit s = Some r → (String.length r ≤ String.length s)%nat.
Proof.
  induction lit as [|a lit IH]; intros s r; simpl.
  - intros [= <-]. lia.
  - destruct s as [|b s]; [done|]. destruct (decide (a = b)); [|done].
    intros H. apply IH in H. simpl. lia.
Qed.

Lemma bind_ret_inv {A B} (o : outcome A) (f : A → outcome B) b :
  o ≫= f = Ret b → ∃ a, o = Ret a ∧ f a = Ret b.
Proof. destruct o as [a|e|]; simpl; [eauto|done..]. Qed.

(** What is left after the opening brace or bracket of a container. *)
Ltac container_case Hloop Hws :=
  let H := fresh "H" in
  destruct (skip_ws _) as [|[[] [] [] [] [] [] [] []] ?];
    simpl in Hws;
    first [ intros H; apply Hloop in H; simpl in H; lia
          | intros [= <- <-]; lia ].

Lemma scan_value_consumes members elements :
  consumes_acc members → consumes_acc elements →
  consumes (scan_value members elements).
Proof.
  intros Hm He s v r. destruct s as [|c s]; [done|].
  pose proof (skip_ws_length s) as Hws.
  destruct c as [[] [] [] [] [] [] [] []]; cbn [scan_value String.length];
    try solve [intros H; apply match_number_length in H; exact H];
    try solve [intros H; apply bind_ret_inv in H as ([str r'] & Hs & [= <- <-]);
               apply (scanstring_length _ _ _ _ (le_n _)) in Hs; lia];
    try solve [destruct (starts_with _ s); [done|];
               intros H; apply match_number_length in H; exact H];
    try solve [destruct (expect _ s) as [r'|] eqn:Hex; [|done];
               intros [= <- <-]; apply expect_length in Hex; lia];
    try solve [by destruct (starts_with _ s)];
    try solve [container_case He Hws];
    try solve [container_case Hm Hws].
Qed.

Lemma scan_member_consumes value members :
  consumes value → consumes_acc members →
  consumes_acc (scan_member value members).
Proof.
  intros Hv Hm s acc v r. destruct s as [|c s]; [done|].
  destruct c as [[] [] [] [] [] [] [] []]; simpl; try done.
  intros H. apply bind_ret_inv in H as ([key r1] & Hkey & H).
  apply (scanstring_length _ _ _ _ (le_n _)) in Hkey.
  pose proof (skip_ws_length r1) as Hw1.
  destruct (skip_ws r1) as [|[[] [] [] [] [] [] [] []] r2]; try done.
  simpl in Hw1.
  apply bind_ret_inv in H as ([val r3] & Hval & H).
  apply Hv in Hval. pose proof (skip_ws_length r2) as Hw2.
  pose proof (skip_ws_length r3) as Hw3.
  destruct (skip_ws r3) as [|[[] [] [] [] [] [] [] []] r4]; try done;
    simpl in Hw3;
    first [ injection H as <- <-; lia
          | apply Hm in H; pose proof (skip_ws_length r4); lia ].
Qed.

Lemma scan_element_consumes value elements :
  consumes value → consumes_acc elements →
  consumes_acc (scan_element value elements).
Proof.
  intros Hv He s acc v r. unfold scan_element.
  intros H. apply bind_ret_inv in H as ([val r1] & Hval & H).
  apply Hv in Hval. pose proof (skip_ws_length r1) as Hw1.
  destruct (skip_ws r1) as [|[[] [] [] [] [] [] [] []] r2]; try done;
    simpl in Hw1;
    first [ injection H as <- <-; lia
          | apply He in H; pose proof (skip_ws_length r2); lia ].
Qed.

Lemma fuel_consumes fuel :
  consumes (scan_once fuel) ∧ consumes_acc (parse_members fuel) ∧
  consumes_acc (parse_elements fuel).
Proof.
  induction fuel as [|fuel (Hv & Hm & He)]; [by repeat split|].
  split; [|split]; simpl.
  - by apply scan_value_consumes.
  - by apply scan_member_consumes.
  - by apply scan_element_consumes.
Qed.

(** The three steps only call the nested parsers on shorter inputs, so two
    families of parsers that agree there give the same step. *)
Lemma scan_value_ext members members' elements elements' s :
  (∀ r acc, (String.length r < String.length s)%nat →
            members r acc = members' r acc) →
  (∀ r acc, (String.length r < String.length s)%nat →
            elements r acc = elements' r acc) →
  scan_value members elements s = scan_value members' elements' s.
Proof.
  intros Hm He. destruct s as [|c s]; [done|].
  pose proof (skip_ws_length s) as Hws.
  destruct c as [[] [] [] [] [] [] [] []]; cbn [scan_value]; try reflexivity;
    destruct (skip_ws s) as [|[[] [] [] [] [] [] [] []] r'];
    try reflexivity; simpl in *;
    first [apply Hm|apply He]; simpl; lia.
Qed.

Lemma scan_member_ext value value' members members' s acc :
  consumes value →
  (∀ r, (String.length r < String.length s)%nat → value r = value' r) →
  (∀ r acc, (String.length r < String.length s)%nat →
            members r acc = members' r acc) →
  scan_member value members s acc = scan_member value' members' s acc.
Proof.
  intros Hc Hv Hm. destruct s as [|c s]; [done|].
  destruct c as [[] [] [] [] [] [] [] []]; cbn [scan_member]; try reflexivity.
  destruct (scanstring s) as [[key r1]|e|] eqn:Hkey; [|done..].
  apply (scanstring_length _ _ _ _ (le_n _)) in Hkey.
  cbn [mbind outcome_bind].
  pose proof (skip_ws_length r1) as Hw1.
  destruct (skip_ws r1) as [|[[] [] [] [] [] [] [] []] r2]; try reflexivity.
  simpl in Hw1. pose proof (skip_ws_length r2) as Hw2.
  rewrite <- Hv by (simpl; lia).
  destruct (value (skip_ws r2)) as [[val r3]|e|] eqn:Hval; [|done..].
  apply Hc in Hval. cbn [mbind outcome_bind].
  pose proof (skip_ws_length r3) as Hw3.
  destruct (skip_ws r3) as [|[[] [] [] [] [] [] [] []] r4]; try reflexivity.
  simpl in Hw3. pose proof (skip_ws_length r4) as Hw4.
  apply Hm. simpl. lia.
Qed.

Lemma scan_element_ext value value' elements elements' s acc :
  consumes value → value s = value' s →
  (∀ r acc, (String.length r < String.length s)%nat →
            elements r acc = elements' r acc) →
  scan_element value elements s acc = scan_element value' elements' s acc.
Proof.
  intros Hc Hv He. unfold scan_element. rewrite <- Hv.
  destruct (value s) as [[val r1]|e|] eqn:Hval; [|done..].
  apply Hc in Hval. cbn [mbind outcome_bind].
  pose proof (skip_ws_length r1) as Hw1.
  destruct (skip_ws r1) as [|[[] [] [] [] [] [] [] []] r2]; try reflexivity.
  simpl in Hw1. pose proof (skip_ws_length r2) as Hw2.
  apply He. lia.
Qed.

(** One more unit of fuel than twice the input and one changes nothing. *)
Lemma fuel_stable fuel :
  (∀ s, (2 * String.length s + 1 ≤ fuel)%nat →
        scan_once (S fuel) s = scan_once fuel s) ∧
  (∀ s acc, (2 * String.length s + 2 ≤ fuel)%nat →
            parse_members (S fuel) s acc = parse_members fuel s acc) ∧
  (∀ s acc, (2 * String.length s + 2 ≤ fuel)%nat →
            parse_elements (S fuel) s acc = parse_elements fuel s acc).
Proof.
  induction fuel as [|fuel (IHv & IHm & IHe)].
  { repeat split; intros; lia. }
  destruct (fuel_consumes (S fuel)) as (Hc & _ & _).
  split; [|split].
  - intros s Hs. change (scan_value (parse_members (S fuel)) (parse_elements (S fuel)) s =
                         scan_value (parse_members fuel) (parse_elements fuel) s).
    apply scan_value_ext; intros r acc Hr; [apply IHm|apply IHe]; lia.
  - intros s acc Hs.
    change (scan_member (scan_once (S fuel)) (parse_members (S fuel)) s acc =
            scan_member (scan_once fuel) (parse_members fuel) s acc).
    apply scan_member_ext; [done|..]; intros r; intros;
      [apply IHv|apply IHm]; lia.
  - intros s acc Hs.
    change (scan_element (scan_once (S fuel)) (parse_elements (S fuel)) s acc =
            scan_element (scan_once fuel) (parse_elements fuel) s acc).
    apply scan_element_ext; [done|apply IHv; lia|].
    intros r acc' Hr. apply IHe. lia.
Qed.

(** The decoder does not depend on its fuel: all amounts above twice the
    length of the input give the result of [2 * n + 1]. *)
Theorem scan_once_fuel s fuel :
  (2 * String.length s + 1 ≤ fuel)%nat →
  scan_once fuel s = scan_once (2 * String.length s + 1) s.
Proof.
  induction 1 as [|fuel Hle IH]; [reflexivity|].
  rewrite <- IH. by apply fuel_stable.
Qed.

Corollary json_loads_fuel s fuel :
  (2 * String.length s + 1 ≤ fuel)%nat →
  json_loads s =
    '(v, r) ← scan_once fuel (skip_ws s);
    match skip_ws r with
    | EmptyString => Ret v
    | String _ _ => Raise JSONDecodeError
    end.
Proof.
  intros Hfuel. unfold json_loads. pose proof (skip_ws_length s) as Hws.
  rewrite (scan_once_fuel (skip_ws s) fuel) by lia.
  rewrite (scan_once_fuel (skip_ws s) (S (2 * String.length s))) by lia.
  reflexivity.
Qed.

(** * Further properties of the operations *)

(** ** Facts about the operators and the dict *)

Lemma py_add_raises a b e : py_add a b = Raise e → e = TypeError.
Proof. destruct a, b; simpl; congruence. Qed.

Lemma py_add_inside a b : py_add a b ≠ Outside.
Proof. destruct a, b; simpl; congruence. Qed.

Lemma py_sub_cases a b :
  (∃ x y, a = PyInt x ∧ b = PyInt y ∧ py_sub a b = Ret (PyInt (x - y))) ∨
  ((type_of a ≠ TInt ∨ type_of b ≠ TInt) ∧ py_sub a b = Raise TypeError).
Proof.
  destruct a, b; simpl; try (right; split; [|done]; auto; fail).
  left. eauto.
Qed.

Lemma dict_keys_set (d : pydict) k v :
  dict_keys (dict_set d k v) =
  match dict_lookup d k with
  | Some _ => dict_keys d
  | None => dict_keys d ++ [k]
  end.
Proof.
  unfold dict_keys. induction d as [|[k0 v0] d IH]; [done|].
  cbn [dict_set dict_lookup].
  destruct (decide (k0 = k)) as [->|]; rewrite !fmap_cons; [done|].
  rewrite IH. by destruct (dict_lookup d k).
Qed.

Lemma dict_keys_del (d : pydict) k :
  dict_keys (dict_del d k) = filter (λ k', k' ≠ k) (dict_keys d).
Proof.
  unfold dict_keys. induction d as [|[k0 v0] d IH]; [done|].
  cbn [dict_del]. rewrite fmap_cons. cbn [fst].
  destruct (decide (k0 = k)) as [->|Hne].
  - rewrite filter_cons_False by auto. done.
  - rewrite filter_cons_True by done. rewrite fmap_cons. by rewrite IH.
Qed.

Lemma dict_set_same (d : pydict) k v :
  dict_lookup d k = Some v → dict_set d k v = d.
Proof.
  induction d as [|[k0 v0] d IH]; simpl; [done|].
  destruct (decide (k0 = k)) as [->|]; [by intros [= ->]|].
  intros H. by rewrite IH.
Qed.

Lemma dict_set_set (d : pydict) k a b :
  dict_set (dict_set d k a) k b = dict_set d k b.
Proof.
  induction d as [|[k0 v0] d IH]; simpl.
  - destruct (decide (k = k)); done.
  - destruct (decide (k0 = k)) as [->|]; simpl.
    + destruct (decide (k = k)); done.
    + destruct (decide (k0 = k)); [done|]. by rewrite IH.
Qed.

Lemma dict_del_absent (d : pydict) k :
  dict_lookup d k = None → dict_del d k = d.
Proof.
  induction d as [|[k0 v0] d IH]; simpl; [done|].
  destruct (decide (k0 = k)); [done|]. intros H. by rewrite IH.
Qed.

(** ** add_item and remove_item always return *)

Lemma add_item_returns now item qty logs w :
  ∃ l w', add_item now item qty logs w = (Ret l, w') ∧
          same_io w w' ∧ logs_once w w'.
Proof.
  destruct (py_hash item) as [k|e|] eqn:Hh.
  - rewrite (add_item_hashable _ _ _ _ _ k Hh).
    destruct (py_add _ qty) as [v|e|] eqn:Ha.
    + eexists _, _. split; [reflexivity|]. split; [done|]. by eexists.
    + apply py_add_raises in Ha as ->.
      eexists _, _. split; [reflexivity|]. split; [done|]. by eexists.
    + by apply py_add_inside in Ha.
  - destruct item; simpl in Hh; try discriminate; inversion Hh; subst;
      rewrite add_item_unhashable by done;
      (eexists _, _; split; [reflexivity|]; split; [done|]; by eexists).
  - destruct item; discriminate.
Qed.

Lemma remove_item_returns item qty w :
  ∃ w', remove_item item qty w = (Ret (), w') ∧ same_io w w' ∧ logs_once w w'.
Proof.
  destruct (py_hash item) as [k|e|] eqn:Hh.
  - rewrite (remove_item_hashable _ _ _ k Hh).
    destruct (dict_lookup (data w) k) as [cur|].
    + destruct (py_sub_cases cur qty) as [(x & y & -> & -> & ->)|[_ ->]].
      * simpl. destruct (x - y <=? 0)%Z;
          (eexists; split; [reflexivity|]; split; [done|]; by eexists).
      * eexists; split; [reflexivity|]; split; [done|]; by eexists.
    + eexists; split; [reflexivity|]; split; [done|]; by eexists.
  - destruct item; simpl in Hh; try discriminate; inversion Hh; subst;
      rewrite remove_item_unhashable by done;
      (eexists; split; [reflexivity|]; split; [done|]; by eexists).
  - destruct item; discriminate.
Qed.

(** X1.  [add_item] and [remove_item] return normally for every state and
    for every item and quantity of the universe, [logs] being left out or a
    list: no exception escapes them.  Each call adds exactly one record to
    the log and leaves standard output and the files as they were. *)
Theorem mutators_always_return w :
  (∀ now item qty logs,
     ∃ l w', add_item now item qty logs w = (Ret l, w') ∧
             same_io w w' ∧ logs_once w w') ∧
  (∀ item qty,
     ∃ w', remove_item item qty w = (Ret (), w') ∧
           same_io w w' ∧ logs_once w w').
Proof.
  split; intros.
  - apply add_item_returns.
  - apply remove_item_returns.
Qed.

(** ** What a successful add_item leaves *)

(** X2.  When the item is hashable and [+] accepts the stored value (0 when
    the item is absent) and the quantity, [add_item] returns normally, one
    entry with the time, the quantity and the item is appended to [logs],
    [get_qty] then returns the sum (integers are added, two strings or two
    lists are concatenated), and every other key holds what it held. *)
Theorem add_item_stores_sum now item qty logs w k v :
  py_hash item = Ret k →
  py_add (default (PyInt 0) (dict_lookup (data w) k)) qty = Ret v →
  ∃ w',
    add_item now item qty logs w =
      (Ret (default [] logs ++ [AuditEntry now qty item]), w') ∧
    get_qty item w' = (Ret v, w') ∧
    ∀ k', k' ≠ k → dict_lookup (data w') k' = dict_lookup (data w) k'.
Proof.
  intros Hh Ha. rewrite (add_item_hashable _ _ _ _ _ k Hh), Ha.
  eexists. split; [reflexivity|]. split.
  - unfold get_qty, data_get, mbind, M_bind, lift, gets. rewrite Hh. simpl.
    rewrite dict_lookup_set. by destruct (decide (k = k)).
  - intros k' Hne. simpl. rewrite dict_lookup_set.
    destruct (decide (k = k')); congruence.
Qed.

Lemma add_item_stores_sum_witness :
  ∃ w',
    add_item 5 (PyStr "apple") (PyInt 4) (Some []) stocked =
      (Ret ([] ++ [AuditEntry 5 (PyInt 4) (PyStr "apple")]), w') ∧
    get_qty (PyStr "apple") w' = (Ret (PyInt 14), w') ∧
    ∀ k', k' ≠ KStr "apple" →
          dict_lookup (data w') k' = dict_lookup (data stocked) k'.
Proof.
  apply (add_item_stores_sum 5 (PyStr "apple") (PyInt 4) (Some []) stocked
           (KStr "apple") (PyInt 14)); reflexivity.
Defined.

(** X3.  A successful [add_item] keeps the order of the dict: an item that
    is present keeps its place, a new item goes last. *)
Theorem add_item_keeps_order now item qty logs w k v :
  py_hash item = Ret k →
  py_add (default (PyInt 0) (dict_lookup (data w) k)) qty = Ret v →
  dict_keys (data (add_item now item qty logs w).2) =
    match dict_lookup (data w) k with
    | Some _ => dict_keys (data w)
    | None => dict_keys (data w) ++ [k]
    end.
Proof.
  intros Hh Ha. rewrite (add_item_hashable _ _ _ _ _ k Hh), Ha. simpl.
  apply dict_keys_set.
Qed.

Lemma add_item_keeps_order_witness :
  dict_keys (data (add_item 5 (PyStr "cherry") (PyInt 4) None stocked).2) =
    dict_keys (data stocked) ++ [KStr "cherry"] ∧
  dict_keys (data (add_item 5 (PyStr "apple") (PyInt 4) None stocked).2) =
    dict_keys (data stocked).
Proof.
  split.
  - apply (add_item_keeps_order 5 (PyStr "cherry") (PyInt 4) None stocked
             (KStr "cherry") (PyInt 4)); reflexivity.
  - apply (add_item_keeps_order 5 (PyStr "apple") (PyInt 4) None stocked
             (KStr "apple") (PyInt 14)); reflexivity.
Defined.

(** ** What remove_item leaves *)

(** X4.  On an item that holds the integer [cur], [remove_item] with the
    integer [q] (of any sign) leaves the key absent when [cur - q <= 0] and
    holding [cur - q] otherwise; the other keys keep their values and all
    keys that stay keep their order. *)
Theorem remove_item_subtracts item q w k cur :
  py_hash item = Ret k →
  dict_lookup (data w) k = Some (PyInt cur) →
  ∃ w',
    remove_item item (PyInt q) w = (Ret (), w') ∧
    dict_lookup (data w') k =
      (if decide (cur - q <= 0) then None else Some (PyInt (cur - q))) ∧
    (∀ k', k' ≠ k → dict_lookup (data w') k' = dict_lookup (data w) k') ∧
    dict_keys (data w') =
      (if decide (cur - q <= 0) then filter (λ k', k' ≠ k) (dict_keys (data w))
       else dict_keys (data w)).
Proof.
  intros Hh Hl. rewrite (remove_item_hashable _ _ _ k Hh), Hl. simpl.
  destruct (decide (cur - q <= 0)) as [Hle|Hgt].
  - rewrite (proj2 (Z.leb_le _ _) Hle). simpl.
    eexists. split; [reflexivity|]. simpl. rewrite dict_del_set.
    split; [|split].
    + rewrite dict_lookup_del. by destruct (decide (k = k)).
    + intros k' Hne. rewrite dict_lookup_del. by destruct (decide (k = k')).
    + apply dict_keys_del.
  - rewrite (proj2 (Z.leb_gt _ _)) by lia. simpl.
    eexists. split; [reflexivity|]. simpl. split; [|split].
    + rewrite dict_lookup_set. by destruct (decide (k = k)).
    + intros k' Hne. rewrite dict_lookup_set. by destruct (decide (k = k')).
    + by rewrite dict_keys_set, Hl.
Qed.

Lemma remove_item_subtracts_witness :
  ∃ w',
    remove_item (PyStr "apple") (PyInt 10) stocked = (Ret (), w') ∧
    dict_lookup (data w') (KStr "apple") = None ∧
    (∀ k', k' ≠ KStr "apple" →
           dict_lookup (data w') k' = dict_lookup (data stocked) k') ∧
    dict_keys (data w') = [KStr "banana"].
Proof.
  apply (remove_item_subtracts (PyStr "apple") 10 stocked (KStr "apple") 10);
    reflexivity.
Defined.



(** X6.  Adding an integer quantity to an item and removing the same
    quantity right after leaves the dict exactly as it was, when the item was
    absent or held a strictly positive integer. *)
Theorem add_then_remove_restores now item q logs w k :
  py_hash item = Ret k →
  dict_lookup (data w) k = None ∨
    (∃ cur, dict_lookup (data w) k = Some (PyInt cur) ∧ 0 < cur) →
  data (remove_item item (PyInt q) (add_item now item (PyInt q) logs w).2).2 =
    data w.
Proof.
  intros Hh Hcur. rewrite (add_item_hashable _ _ _ _ _ k Hh).
  destruct Hcur as [Hl|(cur & Hl & Hpos)]; rewrite Hl; simpl;
    rewrite (remove_item_hashable _ _ _ k Hh); simpl;
    rewrite dict_lookup_set; destruct (decide (k = k)); try done; simpl.
  - replace (0 + q - q) with 0 by lia. simpl.
    rewrite !dict_del_set. by apply dict_del_absent.
  - replace (cur + q - q) with cur by lia.
    destruct (Z.leb_spec cur 0); [lia|]. simpl.
    rewrite dict_set_set. by apply dict_set_same.
Qed.

Lemma add_then_remove_restores_witness :
  data (remove_item (PyStr "apple") (PyInt 4)
          (add_item 5 (PyStr "apple") (PyInt 4) None stocked).2).2 =
    data stocked.
Proof.
  apply (add_then_remove_restores 5 (PyStr "apple") 4 None stocked (KStr "apple")).
  - reflexivity.
  - right. exists 10. split; [reflexivity|lia].
Defined.

(** ** Inventories built by the operations hold integers *)

Lemma add_item_int_valued now item qty logs w :
  int_valued (data w) → int_valued (data (add_item now item qty logs w).2).
Proof.
  intros Hint. destruct (py_hash item) as [k|e|] eqn:Hh.
  - rewrite (add_item_hashable _ _ _ _ _ k Hh).
    assert (∃ c, default (PyInt 0) (dict_lookup (data w) k) = PyInt c) as [c ->].
    { destruct (dict_lookup (data w) k) as [v|] eqn:Hl; simpl; [|by eexists].
      apply dict_lookup_elem in Hl. unfold int_valued in Hint.
      rewrite Forall_forall in Hint. specialize (Hint _ Hl). simpl in Hint.
      destruct v; try discriminate. by eexists. }
    destruct qty; simpl; try done. by apply Forall_dict_set.
  - destruct item; simpl in Hh; try discriminate; inversion Hh; subst;
      by rewrite add_item_unhashable.
  - destruct item; discriminate.
Qed.

Lemma remove_item_int_valued item qty w :
  int_valued (data w) → int_valued (data (remove_item item qty w).2).
Proof.
  intros Hint. destruct (py_hash item) as [k|e|] eqn:Hh.
  - rewrite (remove_item_hashable _ _ _ k Hh).
    destruct (dict_lookup (data w) k) as [cur|]; [|done].
    destruct (py_sub_cases cur qty) as [(x & y & -> & -> & ->)|[_ ->]]; [|done].
    simpl. destruct (x - y <=? 0)%Z; simpl.
    + rewrite dict_del_set. by apply Forall_dict_del.
    + by apply Forall_dict_set.
  - destruct item; simpl in Hh; try discriminate; inversion Hh; subst;
      by rewrite remove_item_unhashable.
  - destruct item; discriminate.
Qed.

Lemma run_int_valued cs w : int_valued (data w) → int_valued (data (run cs w)).
Proof.
  revert w. induction cs as [|c cs IH]; intros w Hw; [done|].
  simpl. apply IH. destruct c; simpl.
  - by apply add_item_int_valued.
  - by apply remove_item_int_valued.
Qed.



(** ** check_low_items at the edges *)




(** X9.  Raising the threshold only adds items: on an inventory of
    integers, the list for [t] is a sublist of the list for any [t'] at least
    [t], in the same order. *)
Theorem check_low_items_monotone w t t' :
  int_valued (data w) → t <= t' →
  ∃ l l',
    check_low_items (Some (PyInt t)) w = (Ret l, w) ∧
    check_low_items (Some (PyInt t')) w = (Ret l', w) ∧
    sublist l l'.
Proof.
  intros Hint Hle. exists (low_stock (data w) t), (low_stock (data w) t').
  unfold check_low_items, mbind, M_bind, gets, lift. simpl.
  rewrite !low_items_int by done. split; [done|]. split; [done|].
  unfold low_stock. apply fmap_sublist, fmap_sublist.
  clear Hint. induction (data w) as [|[k v] d IH]; [done|].
  destruct (decide (qty_below t (k, v))) as [Hlt|Hge].
  - rewrite filter_cons_True by done.
    rewrite filter_cons_True.
    + by apply sublist_skip.
    + unfold qty_below in *. simpl in *. destruct v; try done. lia.
  - rewrite filter_cons_False by done.
    destruct (decide (qty_below t' (k, v))).
    + rewrite filter_cons_True by done. by apply sublist_cons.
    + rewrite filter_cons_False by done. done.
Qed.

Lemma check_low_items_monotone_witness :
  ∃ l l',
    check_low_items (Some (PyInt 3)) stocked = (Ret l, stocked) ∧
    check_low_items (Some (PyInt 11)) stocked = (Ret l', stocked) ∧
    sublist l l'.
Proof.
  apply (check_low_items_monotone stocked 3 11).
  - repeat constructor.
  - lia.
Defined.

(** ** print_data *)

Lemma print_items_lines entries w :
  print_items entries w =
    (Ret (),
     print_lines
       ((λ e : pykey * pyval, FString "{} -> {}" [of_key e.1; e.2]) <$> entries) w).
Proof.
  revert w. induction entries as [|[k v] rest IH]; intros w.
  - unfold print_lines. simpl. rewrite app_nil_r. by destruct w.
  - simpl. unfold mbind, M_bind, print, modify. rewrite IH.
    unfold print_lines. simpl. by rewrite <- app_assoc.
Qed.

(** X10.  [print_data] returns normally for every dict and writes the
    header, then one line per entry in the order of the dict (or the single
    line "Inventory is empty." when there is none), then the footer; the
    dict, the log and the files are unchanged. *)
Theorem print_data_report w :
  print_data w = (Ret (), print_lines (report_lines (data w)) w).
Proof.
  destruct w as [d lg out fs].
  unfold print_data, report_lines, mbind at 1, M_bind at 1, print at 1, modify at 1.
  unfold mbind at 1, M_bind at 1, gets. cbn [data].
  destruct d as [|e rest].
  - unfold print_lines, mbind, M_bind, print, modify. simpl.
    rewrite <- !app_assoc. reflexivity.
  - unfold mbind at 1, M_bind at 1. rewrite print_items_lines.
    unfold print_lines, print, modify. simpl. rewrite <- !app_assoc. reflexivity.
Qed.

(** ** save_data *)

(** X11.  [save_data] returns normally for every dict of the universe and
    every path.  Afterwards the file at the path holds exactly the JSON text
    of the dict, whatever it held before; every other file, the dict and
    standard output are as they were, and one INFO record is logged. *)
Theorem save_data_overwrites file w :
  ∃ w',
    save_data file w = (Ret (), w') ∧
    disk w' !! default default_file file = Some (json_dumps (PyDict (data w))) ∧
    (∀ other, other ≠ default default_file file → disk w' !! other = disk w !! other) ∧
    data w' = data w ∧ stdout w' = stdout w ∧
    logged w' = logged w ++ [save_info_record (default default_file file)].
Proof.
  eexists. split; [apply save_data_eq|]. simpl. split; [|split]; [..|done].
  - apply lookup_insert_eq.
  - intros other Hne. by apply lookup_insert_ne.
Qed.

(** ** load_data *)

Lemma prepend_raises c o e : prepend c o = Raise e → o = Raise e.
Proof. unfold prepend. by destruct o as [[k r]|e'|]. Qed.

Lemma scanstring_errors n : ∀ s,
  (String.length s ≤ n)%nat → decode_errors_only (scanstring s).
Proof.
  induction n as [|n IH]; intros s Hn e Hs.
  { destruct s; [by injection Hs|simpl in Hn; lia]. }
  assert (∀ c s', (String.length s' ≤ n)%nat →
            prepend c (scanstring s') = Raise e → e = JSONDecodeError) as Hpre.
  { intros c s' Hlen Hp. apply prepend_raises in Hp. by apply (IH s'). }
  destruct s as [|c s]; [by injection Hs|]. simpl in Hn.
  destruct c as [[] [] [] [] [] [] [] []]; simpl in Hs;
    try (by injection Hs);
    try (eapply Hpre; [|exact Hs]; lia);
    try discriminate.
  destruct s as [|x s]; [by injection Hs|]. simpl in Hn.
  destruct x as [[] [] [] [] [] [] [] []]; simpl in Hs;
    try (by injection Hs);
    try (eapply Hpre; [|exact Hs]; lia).
  destruct s as [|h1 [|h2 [|h3 [|h4 s]]]]; try (by injection Hs).
  simpl in Hn. destruct (hex4 h1 h2 h3 h4) as [m|]; [|by injection Hs].
  destruct (m <? 256)%N; [|discriminate].
  eapply Hpre; [|exact Hs]. lia.
Qed.

Lemma match_number_errors s : decode_errors_only (match_number s).
Proof.
  intros e. unfold match_number.
  destruct (match s with String "-"%char r => (true, r) | _ => (false, s) end)
    as [neg s1].
  destruct (match_int s1) as [[u r]|]; [|by intros [= <-]].
  by destruct (float_follows r).
Qed.

Lemma bind_raises {A B} (o : outcome A) (f : A → outcome B) e :
  o ≫= f = Raise e → o = Raise e ∨ ∃ a, o = Ret a ∧ f a = Raise e.
Proof. destruct o as [a|e'|]; simpl; [eauto|intros [= ->]; by left|done]. Qed.

Lemma scan_value_errors members elements :
  (∀ s acc, decode_errors_only (members s acc)) →
  (∀ s acc, decode_errors_only (elements s acc)) →
  ∀ s, decode_errors_only (scan_value members elements s).
Proof.
  intros Hm He s e. destruct s as [|c s]; [apply match_number_errors|].
  destruct c as [[] [] [] [] [] [] [] []]; cbn [scan_value];
    try solve [apply match_number_errors];
    try solve [intros H; apply bind_raises in H as [H|([k r] & _ & H)];
               [by apply (scanstring_errors _ _ (le_n _)) in H|done]];
    try solve [destruct (starts_with _ s); [done|apply match_number_errors]];
    try solve [destruct (expect _ s); [done|by intros [= <-]]];
    try solve [destruct (starts_with _ s); [done|by intros [= <-]]];
    try solve [destruct (skip_ws s) as [|[[] [] [] [] [] [] [] []] ?];
               first [done|apply Hm|apply He]].
Qed.

Lemma scan_member_errors value members :
  (∀ s, decode_errors_only (value s)) →
  (∀ s acc, decode_errors_only (members s acc)) →
  ∀ s acc, decode_errors_only (scan_member value members s acc).
Proof.
  intros Hv Hm s acc e. destruct s as [|c s]; [by intros [= <-]|].
  destruct c as [[] [] [] [] [] [] [] []]; cbn [scan_member];
    try (by intros [= <-]).
  intros H. apply bind_raises in H as [H|([key r1] & _ & H)];
    [by apply (scanstring_errors _ _ (le_n _)) in H|].
  destruct (skip_ws r1) as [|[[] [] [] [] [] [] [] []] r2];
    try (by injection H as <-).
  apply bind_raises in H as [H|([val r3] & _ & H)]; [by apply Hv in H|].
  destruct (skip_ws r3) as [|[[] [] [] [] [] [] [] []] r4];
    try (by injection H as <-); try done.
  by apply Hm in H.
Qed.

Lemma scan_element_errors value elements :
  (∀ s, decode_errors_only (value s)) →
  (∀ s acc, decode_errors_only (elements s acc)) →
  ∀ s acc, decode_errors_only (scan_element value elements s acc).
Proof.
  intros Hv He s acc e H. unfold scan_element in H.
  apply bind_raises in H as [H|([val r1] & _ & H)]; [by apply Hv in H|].
  destruct (skip_ws r1) as [|[[] [] [] [] [] [] [] []] r2];
    try (by injection H as <-); try done.
  by apply He in H.
Qed.

Lemma decoder_errors fuel :
  (∀ s, decode_errors_only (scan_once fuel s)) ∧
  (∀ s acc, decode_errors_only (parse_members fuel s acc)) ∧
  (∀ s acc, decode_errors_only (parse_elements fuel s acc)).
Proof.
  induction fuel as [|fuel (Hv & Hm & He)]; [by repeat split|].
  split; [|split]; simpl.
  - by apply scan_value_errors.
  - by apply scan_member_errors.
  - by apply scan_element_errors.
Qed.

Lemma json_loads_errors s : decode_errors_only (json_loads s).
Proof.
  intros e H. unfold json_loads in H.
  apply bind_raises in H as [H|([v r] & _ & H)].
  - by apply decoder_errors in H.
  - destruct (skip_ws r); [done|by injection H as <-].
Qed.

(** X12.  [load_data] only reads: for every path and every state it leaves
    the dict, standard output and the files as they were.  No exception
    escapes it: a missing file and a decoding error are both handled, and the
    decoder raises nothing else. *)
Theorem load_data_only_reads file w :
  data (load_data file w).2 = data w ∧
  stdout (load_data file w).2 = stdout w ∧
  disk (load_data file w).2 = disk w ∧
  ∀ e, (load_data file w).1 ≠ Raise e.
Proof.
  unfold load_data, try_except, open_read, mbind, M_bind, gets, lift, logging, modify.
  simpl. destruct (disk w !! default default_file file) as [text|]; simpl.
  - pose proof (json_loads_errors text) as Herr.
    destruct (json_loads text) as [v|e|]; simpl; [done| |done].
    rewrite (Herr e eq_refl). done.
  - done.
Qed.

(** X13.  A file that is empty or holds only white space is treated as
    corrupt: [load_data] returns an empty dict and logs the INFO record and
    then an ERROR record. *)
Theorem load_data_blank file w text :
  disk w !! default default_file file = Some text →
  skip_ws text = EmptyString →
  load_data file w =
    (Ret (PyDict []),
     append_log (load_error_record (default default_file file))
       (append_log (load_info_record (default default_file file)) w)).
Proof.
  intros Hfile Hblank.
  unfold load_data, try_except, open_read, mbind, M_bind, gets, lift.
  simpl. rewrite Hfile. simpl.
  unfold json_loads. rewrite Hblank. reflexivity.
Qed.

Lemma load_data_blank_witness :
  load_data None blank_file =
    (Ret (PyDict []),
     append_log (load_error_record default_file)
       (append_log (load_info_record default_file) blank_file)).
Proof.
  apply (load_data_blank None blank_file (String " " nl)); reflexivity.
Defined.

(** ** main *)

Lemma M_bind_ret {A B} (m : M A) (f : A → M B) w a w' :
  m w = (Ret a, w') → (m ≫= f) w = f a w'.
Proof. intros H. unfold mbind, M_bind. by rewrite H. Qed.

Lemma add_item_run now item qty logs w :
  ∃ l, add_item now item qty logs w =
         (Ret l, run_call (AddItem now item qty logs) w).
Proof.
  destruct (add_item_returns now item qty logs w) as (l & w' & H & _).
  exists l. simpl. by rewrite H.
Qed.

Lemma remove_item_run item qty w :
  remove_item item qty w = (Ret (), run_call (RemoveItem item qty) w).
Proof.
  destruct (remove_item_returns item qty w) as (w' & H & _).
  simpl. by rewrite H.
Qed.

Lemma run_call_same_io c w : same_io w (run_call c w).
Proof.
  destruct c as [now item qty logs|item qty]; simpl.
  - by destruct (add_item_returns now item qty logs w) as (l & w' & -> & ? & _).
  - by destruct (remove_item_returns item qty w) as (w' & -> & ? & _).
Qed.

Lemma run_same_io cs w : same_io w (run cs w).
Proof.
  revert w. induction cs as [|c cs IH]; intros w; [done|].
  simpl. destruct (IH (run_call c w)) as [Ho Hd].
  destruct (run_call_same_io c w) as [Ho' Hd'].
  split; congruence.
Qed.

Lemma get_qty_key k w :
  get_qty (of_key k) w = (Ret (default (PyInt 0) (dict_lookup (data w) k)), w).
Proof.
  unfold get_qty, data_get, mbind, M_bind, lift, gets.
  by rewrite py_hash_of_key.
Qed.

Lemma check_low_items_int w :
  int_valued (data w) →
  check_low_items None w = (Ret (low_stock (data w) 5), w).
Proof.
  intros Hint. unfold check_low_items, mbind, M_bind, gets, lift. simpl.
  by rewrite low_items_int.
Qed.

Lemma print_data_eq w :
  print_data w = (Ret (), print_lines (report_lines (data w)) w).
Proof.
  destruct w as [d lg out fs].
  unfold print_data, report_lines, mbind at 1, M_bind at 1, print at 1, modify at 1.
  unfold mbind at 1, M_bind at 1, gets. cbn [data].
  destruct d as [|e rest].
  - unfold print_lines, mbind, M_bind, print, modify. simpl.
    rewrite <- !app_assoc. reflexivity.
  - unfold mbind at 1, M_bind at 1. rewrite print_items_lines.
    unfold print_lines, print, modify. simpl. rewrite <- !app_assoc. reflexivity.
Qed.

(** The part of [main] after the load, when the load gave a dict of
    integers. *)
Lemma main_after_load t1 t2 t3 d w w1 :
  load_data None w = (Ret (PyDict d), w1) →
  stdout w1 = stdout w → disk w1 = disk w → int_valued d →
  ∃ w',
    main t1 t2 t3 w = (Ret (), w') ∧
    data w' = data (run (demo_calls t1 t2 t3) (set_data d w1)) ∧
    disk w' = <[default_file := json_dumps (PyDict (data w'))]> (disk w) ∧
    stdout w' =
      stdout w ++
      summary_lines (data w') (low_stock (data w') 5) ++ report_lines (data w').
Proof.
  intros Hload Hout Hdisk Hint.
  set (w6 := run (demo_calls t1 t2 t3) (set_data d w1)).
  assert (int_valued (data w6)) as Hint6 by by apply run_int_valued.
  destruct (run_same_io (demo_calls t1 t2 t3) (set_data d w1)) as [Ho6 Hd6].
  fold w6 in Ho6, Hd6.
  change (stdout (set_data d w1)) with (stdout w1) in Ho6.
  change (disk (set_data d w1)) with (disk w1) in Hd6.
  unfold main.
  rewrite (M_bind_ret _ _ _ _ _ Hload). cbv beta iota.
  rewrite (M_bind_ret (modify (set_data d)) _ w1 () (set_data d w1) eq_refl).
  set (c1 := AddItem t1 (PyStr "apple") (PyInt 10) None).
  set (c2 := AddItem t2 (PyStr "banana") (PyInt 2) None).
  set (c3 := AddItem t3 (PyInt 123) (PyStr "ten") None).
  set (c4 := RemoveItem (PyStr "apple") (PyInt 3)).
  set (c5 := RemoveItem (PyStr "orange") (PyInt 1)).
  set (u0 := set_data d w1) in *.
  destruct (add_item_run t1 (PyStr "apple") (PyInt 10) None u0) as [l1 H1].
  rewrite (M_bind_ret _ _ _ _ _ H1). fold c1.
  set (u1 := run_call c1 u0).
  destruct (add_item_run t2 (PyStr "banana") (PyInt 2) None u1) as [l2 H2].
  rewrite (M_bind_ret _ _ _ _ _ H2). fold c2.
  set (u2 := run_call c2 u1).
  destruct (add_item_run t3 (PyInt 123) (PyStr "ten") None u2) as [l3 H3].
  rewrite (M_bind_ret _ _ _ _ _ H3). fold c3.
  set (u3 := run_call c3 u2).
  rewrite (M_bind_ret _ _ _ _ _ (remove_item_run (PyStr "apple") (PyInt 3) u3)).
  fold c4. set (u4 := run_call c4 u3).
  rewrite (M_bind_ret _ _ _ _ _ (remove_item_run (PyStr "orange") (PyInt 1) u4)).
  fold c5.
  change (run_call c5 u4) with w6.
  rewrite (M_bind_ret _ _ _ _ _ (get_qty_key (KStr "apple") w6)).
  set (line1 := FString "Apple stock: {}"
                  [default (PyInt 0) (dict_lookup (data w6) (KStr "apple"))]).
  rewrite (M_bind_ret (print line1) _ w6 () (print_lines [line1] w6) eq_refl).
  rewrite (M_bind_ret _ _ _ _ _ (check_low_items_int (print_lines [line1] w6) Hint6)).
  set (line2 := FString "Low items: {}" [PyList (low_stock (data w6) 5)]).
  rewrite (M_bind_ret (print line2) _ _ () (print_lines [line2] (print_lines [line1] w6)) eq_refl).
  rewrite (M_bind_ret _ _ _ _ _ (save_data_eq None _)).
  rewrite print_data_eq.
  eexists. split; [reflexivity|].
  split; [reflexivity|]. split.
  - cbn [disk data print_lines append_log set_disk default]. by rewrite Hd6, Hdisk.
  - cbn [stdout data print_lines append_log set_disk]. rewrite Ho6, Hout.
    unfold summary_lines. by rewrite <- !app_assoc.
Qed.

Lemma M_bind_raise {A B} (m : M A) (f : A → M B) w e w' :
  m w = (Raise e, w') → (m ≫= f) w = (Raise e, w').
Proof. intros H. unfold mbind, M_bind. by rewrite H. Qed.

Lemma load_data_found w text :
  disk w !! default_file = Some text →
  load_data None w =
    match json_loads text with
    | Ret v => (Ret v, append_log (load_info_record default_file) w)
    | Raise _ =>
        (Ret (PyDict []),
         append_log (load_error_record default_file)
           (append_log (load_info_record default_file) w))
    | Outside => (Outside, append_log (load_info_record default_file) w)
    end.
Proof.
  intros Hfile.
  unfold load_data, try_except, open_read, mbind, M_bind, gets, lift.
  simpl. rewrite Hfile. simpl.
  pose proof (json_loads_errors text) as Herr.
  destruct (json_loads text) as [v|e|]; [reflexivity| |reflexivity].
  rewrite (Herr e eq_refl). reflexivity.
Qed.

Lemma load_data_missing w :
  disk w !! default_file = None →
  load_data None w =
    (Ret (PyDict []), append_log (load_warning_record default_file) w).
Proof.
  intros Hnone.
  unfold load_data, try_except, open_read, mbind, M_bind, gets, lift.
  simpl. rewrite Hnone. reflexivity.
Qed.

(** X14.  When the inventory file is missing or its text does not decode,
    [main] starts from an empty inventory and runs to the end, whatever the
    rest of the state: it leaves 7 apples and 2 bananas, prints the apple
    stock, the low items and the report, and the file then holds the JSON
    text of that inventory. *)
Theorem main_fresh_start t1 t2 t3 w :
  disk w !! default_file = None ∨
    (∃ text, disk w !! default_file = Some text ∧
             json_loads text = Raise JSONDecodeError) →
  ∃ w',
    main t1 t2 t3 w = (Ret (), w') ∧
    data w' = [(KStr "apple", PyInt 7); (KStr "banana", PyInt 2)] ∧
    disk w' !! default_file = Some (json_dumps (PyDict (data w'))) ∧
    stdout w' =
      stdout w ++
      [FString "Apple stock: {}" [PyInt 7];
       FString "Low items: {}" [PyList [PyStr "banana"]]] ++
      report_lines (data w').
Proof.
  intros Hfile.
  assert (∃ w1, load_data None w = (Ret (PyDict []), w1) ∧
                stdout w1 = stdout w ∧ disk w1 = disk w) as (w1 & Hload & Ho & Hd).
  { destruct Hfile as [Hnone|(text & Hsome & Hbad)].
    - eexists. split; [by apply load_data_missing|done].
    - eexists. split;
        [rewrite (load_data_found _ _ Hsome), Hbad; reflexivity|done]. }
  destruct (main_after_load t1 t2 t3 [] w w1 Hload Ho Hd) as (w' & Hmain & Hdata & Hdisk & Hout);
    [constructor|].
  assert (data w' = [(KStr "apple", PyInt 7); (KStr "banana", PyInt 2)]) as Hd'.
  { rewrite Hdata. destruct w1. vm_compute. reflexivity. }
  exists w'. split; [done|]. split; [done|]. split.
  - rewrite Hdisk. apply lookup_insert_eq.
  - rewrite Hout, Hd'. reflexivity.
Qed.

Lemma main_fresh_start_witness :
  ∃ w',
    main 1 2 3 corrupted = (Ret (), w') ∧
    data w' = [(KStr "apple", PyInt 7); (KStr "banana", PyInt 2)] ∧
    disk w' !! default_file = Some (json_dumps (PyDict (data w'))) ∧
    stdout w' =
      stdout corrupted ++
      [FString "Apple stock: {}" [PyInt 7];
       FString "Low items: {}" [PyList [PyStr "banana"]]] ++
      report_lines (data w').
Proof.
  apply (main_fresh_start 1 2 3 corrupted).
  right. exists truncated_json. split; reflexivity.
Defined.

(** X15.  When the inventory file holds valid JSON that is not an object (a
    list, a number, a string or null), [load_data] returns that value and
    the first [add_item] of [main] fails with [AttributeError], which
    escapes: nothing is printed and the file is not rewritten. *)
Theorem main_not_a_dict t1 t2 t3 w text v :
  disk w !! default_file = Some text →
  json_loads text = Ret v →
  (∀ d, v ≠ PyDict d) →
  main t1 t2 t3 w =
    (Raise AttributeError, append_log (load_info_record default_file) w).
Proof.
  intros Hfile Hv Hnd.
  assert (load_data None w = (Ret v, append_log (load_info_record default_file) w))
    as Hload by (rewrite (load_data_found _ _ Hfile), Hv; reflexivity).
  unfold main. rewrite (M_bind_ret _ _ _ _ _ Hload). cbv beta.
  apply M_bind_raise.
  destruct v; try reflexivity. by destruct (Hnd d).
Qed.

Lemma main_not_a_dict_witness :
  main 1 2 3 list_file =
    (Raise AttributeError, append_log (load_info_record default_file) list_file).
Proof.
  apply (main_not_a_dict 1 2 3 list_file "[1, 2]" (PyList [PyInt 1; PyInt 2]));
    [reflexivity|reflexivity|discriminate].
Defined.

(** *** Running main on a file it wrote *)

Lemma dict_lookup_not_in (d : pydict) k :
  dict_lookup d k = None → k ∉ dict_keys d.
Proof.
  unfold dict_keys. induction d as [|[k0 v0] d IH]; simpl.
  - intros _. apply not_elem_of_nil.
  - destruct (decide (k0 = k)); [done|]. intros H.
    apply not_elem_of_cons. split; [congruence|auto].
Qed.

Lemma dict_wf_set (d : pydict) k v : dict_wf d → dict_wf (dict_set d k v).
Proof.
  unfold dict_wf. intros Hwf. rewrite dict_keys_set.
  destruct (dict_lookup d k) eqn:Hl; [done|].
  apply NoDup_app. split; [done|]. split; [|apply NoDup_singleton].
  intros x Hx Hin. apply list_elem_of_singleton in Hin as ->.
  by apply dict_lookup_not_in in Hl.
Qed.

Lemma dict_wf_del (d : pydict) k : dict_wf d → dict_wf (dict_del d k).
Proof.
  unfold dict_wf. intros Hwf. rewrite dict_keys_del. by apply NoDup_filter.
Qed.

Lemma str_int_lookup d k v :
  str_int_inventory d → dict_lookup d k = Some v → ∃ c, v = PyInt c.
Proof.
  intros [_ Hd] Hl. apply dict_lookup_elem in Hl.
  rewrite Forall_forall in Hd. destruct (Hd _ Hl) as (s & c & [= _ ->]).
  by exists c.
Qed.

Lemma str_int_set d s c :
  str_int_inventory d → str_int_inventory (dict_set d (KStr s) (PyInt c)).
Proof.
  intros [Hwf Hd]. split; [by apply dict_wf_set|].
  apply Forall_dict_set; [done|]. by exists s, c.
Qed.

Lemma str_int_del d k :
  str_int_inventory d → str_int_inventory (dict_del d k).
Proof.
  intros [Hwf Hd]. split; [by apply dict_wf_del|by apply Forall_dict_del].
Qed.

Lemma run_call_str_int c w :
  keeps_str_keys c → str_int_inventory (data w) →
  str_int_inventory (data (run_call c w)).
Proof.
  intros Hc Hinv. destruct c as [now item qty logs|item qty]; simpl in *.
  - destruct (py_hash item) as [k|e|] eqn:Hh.
    + rewrite (add_item_hashable _ _ _ _ _ k Hh).
      assert (∃ c, default (PyInt 0) (dict_lookup (data w) k) = PyInt c) as [c ->].
      { destruct (dict_lookup (data w) k) as [v|] eqn:Hl; simpl; [|by eexists].
        by apply (str_int_lookup _ _ _ Hinv Hl). }
      destruct qty; simpl; try done.
      destruct Hc as [[s ->]|Hq]; [|done].
      injection Hh as <-. by apply str_int_set.
    + destruct item; simpl in Hh; try discriminate; inversion Hh; subst;
        by rewrite add_item_unhashable.
    + destruct item; discriminate.
  - destruct (py_hash item) as [k|e|] eqn:Hh.
    + rewrite (remove_item_hashable _ _ _ k Hh).
      destruct (dict_lookup (data w) k) as [cur|] eqn:Hl; [|done].
      destruct (str_int_lookup _ _ _ Hinv Hl) as [c ->].
      destruct qty; simpl; try done.
      destruct (c - z <=? 0)%Z; simpl.
      * rewrite dict_del_set. by apply str_int_del.
      * assert (∃ s, k = KStr s) as [s ->].
        { apply dict_lookup_elem in Hl. destruct Hinv as [_ Hd].
          rewrite Forall_forall in Hd.
          destruct (Hd _ Hl) as (s & q & [= -> _]). by exists s. }
        by apply str_int_set.
    + destruct item; simpl in Hh; try discriminate; inversion Hh; subst;
        by rewrite remove_item_unhashable.
    + destruct item; discriminate.
Qed.

Lemma run_str_int cs w :
  Forall keeps_str_keys cs → str_int_inventory (data w) →
  str_int_inventory (data (run cs w)).
Proof.
  intros Hcs. revert w. induction Hcs as [|c cs Hc Hcs IH]; intros w Hw; [done|].
  simpl. apply IH. by apply run_call_str_int.
Qed.

Lemma all_positive_int_valued d : all_positive d → int_valued d.
Proof.
  induction 1 as [|[k v] d (q & Hv & _) Hd IH]; constructor; [|done].
  simpl in *. by subst.
Qed.

Lemma all_positive_tracks d k : all_positive d → tracks d k (quantity d k).
Proof.
  intros Hpos. unfold tracks, quantity.
  destruct (dict_lookup d k) as [v|] eqn:Hl; [|done].
  destruct (all_positive_lookup _ _ _ Hpos Hl) as (c & -> & Hc).
  split; [lia|]. by rewrite decide_False by lia.
Qed.

Lemma tracks_quantity d k t : tracks d k t → quantity d k = t.
Proof.
  intros [Ht Hl]. unfold quantity. rewrite Hl.
  by destruct (decide (t = 0)) as [->|].
Qed.

(** [add_item] with a string quantity changes nothing in a dict of
    integers. *)
Lemma add_item_str_qty now item s logs w :
  int_valued (data w) →
  data (add_item now item (PyStr s) logs w).2 = data w.
Proof.
  intros Hint. destruct (py_hash item) as [k|e|] eqn:Hh.
  - rewrite (add_item_hashable _ _ _ _ _ k Hh).
    destruct (dict_lookup (data w) k) as [v|] eqn:Hl; simpl; [|done].
    apply dict_lookup_elem in Hl. unfold int_valued in Hint.
    rewrite Forall_forall in Hint. specialize (Hint _ Hl). simpl in Hint.
    by destruct v.
  - destruct item; simpl in Hh; try discriminate; inversion Hh; subst;
      by rewrite add_item_unhashable.
  - destruct item; discriminate.
Qed.

(** The quantity of every key after the five calls of [main]. *)
Lemma demo_calls_tracks t1 t2 t3 w k t :
  int_valued (data w) → tracks (data w) k t →
  tracks (data (run (demo_calls t1 t2 t3) w)) k
    (if decide (k = KStr "apple") then t + 7
     else if decide (k = KStr "banana") then t + 2
     else if decide (k = KStr "orange") then clamp (t - 1)
     else t).
Proof.
  intros Hint Htr.
  set (c1 := AddItem t1 (PyStr "apple") (PyInt 10) None).
  set (c2 := AddItem t2 (PyStr "banana") (PyInt 2) None).
  set (c4 := RemoveItem (PyStr "apple") (PyInt 3)).
  set (c5 := RemoveItem (PyStr "orange") (PyInt 1)).
  assert (stocking_call c1 ∧ stocking_call c2 ∧ stocking_call c4 ∧ stocking_call c5)
    as (Hs1 & Hs2 & Hs4 & Hs5).
  { repeat split; try done; eexists; (split; [reflexivity|lia]). }
  pose proof (run_call_tracks c1 w k t Hs1 Htr) as H1.
  pose proof (run_call_tracks c2 _ k _ Hs2 H1) as H2.
  set (u2 := run_call c2 (run_call c1 w)) in *.
  assert (int_valued (data u2)) as Hint2.
  { apply (run_int_valued [c1; c2]), Hint. }
  pose proof (add_item_str_qty t3 (PyInt 123) "ten" None u2 Hint2) as H3.
  set (u3 := (add_item t3 (PyInt 123) (PyStr "ten") None u2).2) in *.
  rewrite <- H3 in H2.
  pose proof (run_call_tracks c4 u3 k _ Hs4 H2) as H4.
  pose proof (run_call_tracks c5 _ k _ Hs5 H4) as H5.
  change (run (demo_calls t1 t2 t3) w) with (run_call c5 (run_call c4 u3)).
  destruct Htr as [Ht _].
  replace (if decide (k = KStr "apple") then t + 7
           else if decide (k = KStr "banana") then t + 2
           else if decide (k = KStr "orange") then clamp (t - 1) else t)
    with (tally k (tally k (tally k (tally k t c1) c2) c4) c5); [done|].
  unfold tally, names, c1, c2, c4, c5. simpl.
  repeat case_bool_decide; repeat case_decide; subst; try congruence;
    unfold clamp; repeat (case_match; try lia).
Qed.

(** X16.  [main] can be run on the file it wrote.  When the file holds the
    JSON text of an inventory with string keys and strictly positive integer
    quantities, [main] runs to the end; it leaves 7 apples and 2 bananas more
    than the file had, one orange less (none when that reaches zero) and
    every other item as it was; and the file then holds the JSON text of the
    new inventory, which is again of that form. *)
Theorem main_on_saved_inventory t1 t2 t3 w d :
  disk w !! default_file = Some (json_dumps (PyDict d)) →
  str_int_inventory d → all_positive d →
  ∃ w',
    main t1 t2 t3 w = (Ret (), w') ∧
    quantity (data w') (KStr "apple") = quantity d (KStr "apple") + 7 ∧
    quantity (data w') (KStr "banana") = quantity d (KStr "banana") + 2 ∧
    quantity (data w') (KStr "orange") = clamp (quantity d (KStr "orange") - 1) ∧
    (∀ k, k ∉ [KStr "apple"; KStr "banana"; KStr "orange"] →
          quantity (data w') k = quantity d k) ∧
    disk w' !! default_file = Some (json_dumps (PyDict (data w'))) ∧
    str_int_inventory (data w') ∧ all_positive (data w').
Proof.
  intros Hfile Hinv Hpos.
  pose proof (all_positive_int_valued _ Hpos) as Hint.
  assert (load_data None w =
            (Ret (PyDict d), append_log (load_info_record default_file) w)) as Hload.
  { rewrite (load_data_found _ _ Hfile), json_loads_dumps by done. reflexivity. }
  destruct (main_after_load t1 t2 t3 d w _ Hload eq_refl eq_refl Hint)
    as (w' & Hmain & Hdata & Hdisk & _).
  set (u0 := set_data d (append_log (load_info_record default_file) w)) in *.
  assert (∀ k, quantity (data w') k =
               if decide (k = KStr "apple") then quantity d k + 7
               else if decide (k = KStr "banana") then quantity d k + 2
               else if decide (k = KStr "orange") then clamp (quantity d k - 1)
               else quantity d k) as Hq.
  { intros k. rewrite Hdata. apply tracks_quantity.
    apply (demo_calls_tracks t1 t2 t3 u0 k); [done|].
    by apply all_positive_tracks. }
  exists w'. split; [done|].
  split; [by rewrite Hq|]. split; [by rewrite Hq|]. split; [by rewrite Hq|].
  split; [|split; [|split]].
  - intros k Hk. rewrite Hq.
    rewrite !not_elem_of_cons in Hk. destruct Hk as (Ha & Hb & Ho & _).
    by rewrite !decide_False.
  - rewrite Hdisk. apply lookup_insert_eq.
  - rewrite Hdata. apply run_str_int; [|done].
    unfold demo_calls.
    repeat (apply Forall_cons; split;
            [first [done | left; by eexists | by right]|]).
    constructor.
  - rewrite Hdata. apply run_all_positive; [|done].
    repeat constructor; simpl; intros q [= <-]; lia.
Qed.

Lemma stocked_positive : all_positive (data stocked).
Proof. repeat constructor; eexists; (split; [reflexivity|lia]). Defined.

Lemma main_on_saved_inventory_witness :
  ∃ w',
    main 1 2 3 saved = (Ret (), w') ∧
    quantity (data w') (KStr "apple") = 17 ∧
    quantity (data w') (KStr "banana") = 4 ∧
    quantity (data w') (KStr "orange") = 0 ∧
    (∀ k, k ∉ [KStr "apple"; KStr "banana"; KStr "orange"] →
          quantity (data w') k = quantity (data stocked) k) ∧
    disk w' !! default_file = Some (json_dumps (PyDict (data w'))) ∧
    str_int_inventory (data w') ∧ all_positive (data w').
Proof.
  apply (main_on_saved_inventory 1 2 3 saved (data stocked)).
  - reflexivity.
  - exact stocked_str_int.
  - exact stocked_positive.
Defined.

(** ** Keys that are not strings do not survive the file *)

Lemma encode_key_name k : encode_key k = encode_str (key_name k).
Proof. by destruct k. Qed.

Lemma parse_members_named d : ∀ k v acc fuel,
  int_valued d → (length d + 2 ≤ fuel)%nat →
  parse_members fuel
    (encode_key k +:+ ": " +:+ encode_int v +:+ entries_text (json_encode 1) 0 d) acc =
  Ret (PyDict (dict_update (dict_set acc (KStr (key_name k)) (PyInt v))
                 ((λ e : pykey * pyval, (KStr (key_name e.1), e.2)) <$> d)),
       EmptyString).
Proof.
  induction d as [|e d IH]; intros k v acc fuel Hd Hfuel;
    (destruct fuel as [|[|fuel]]; [simpl in Hfuel; lia..|]);
    rewrite encode_key_name, encode_str_append, parse_members_eq,
      scanstring_escape, bind_ret;
    cbv beta iota; rewrite skip_ws_colon; cbv beta iota;
    rewrite skip_ws_space, skip_ws_encode_int,
      (scan_once_encode_int _ _ _ (number_stop_entries _ _)), bind_ret;
    cbv beta iota.
  - rewrite entries_text_nil, skip_ws_newline_indent. reflexivity.
  - inversion Hd as [|[k' v'] ? Hv Hd']; subst. simpl in Hv.
    destruct v' as [|q| | |]; try discriminate.
    rewrite entries_text_cons, skip_ws_comma. cbv beta iota.
    rewrite skip_ws_newline_indent.
    change (json_encode 1 (PyInt q)) with (encode_int q).
    rewrite encode_key_name, skip_ws_encode_str, <- encode_key_name.
    rewrite IH; [reflexivity|done|simpl in *; lia].
Qed.

Lemma json_loads_dumps_named d :
  int_valued d → json_loads (json_dumps (PyDict d)) = Ret (PyDict (as_loaded d)).
Proof.
  intros Hd. destruct d as [|[k v] d]; [reflexivity|].
  inversion Hd as [|? ? Hv Hd']; subst. simpl in Hv.
  destruct v as [|q| | |]; try discriminate.
  unfold json_loads, json_dumps.
  set (body := encode_key k +:+ ": " +:+ encode_int q +:+
               entries_text (json_encode 1) 0 d).
  change (json_encode 0 (PyDict ((k, PyInt q) :: d)))
    with ("{" +:+ newline_indent 1 +:+ body).
  assert (Hlen : (length d + 2 ≤ 2 * String.length ("{" +:+ newline_indent 1 +:+ body))%nat).
  { subst body. simpl String.length. rewrite !length_append. simpl String.length.
    rewrite ?length_append.
    pose proof (entries_text_length (json_encode 1) 0 d). lia. }
  change (skip_ws ("{" +:+ newline_indent 1 +:+ body))
    with (String "{" (newline_indent 1 +:+ body)).
  rewrite (scan_once_object _ _ body).
  - subst body. rewrite parse_members_named by done.
    rewrite bind_ret. cbv beta iota. cbn [skip_ws]. reflexivity.
  - subst body. by rewrite skip_ws_newline_indent, encode_key_name.
  - intros x. subst body. by rewrite encode_key_name, encode_str_append.
Qed.

(** X17.  Saving an inventory of integer quantities and loading it back
    returns every key as a string: a string key as it is, an integer key as
    its decimal digits and [None] as "null", in the order of the dict.  Two
    keys that are written alike come back as one entry, at the place of the
    first and with the quantity of the last. *)
Theorem save_load_renames_keys file w :
  int_valued (data w) →
  ∃ w1,
    save_data file w = (Ret (), w1) ∧
    load_data file w1 =
      (Ret (PyDict (as_loaded (data w))),
       append_log (load_info_record (default default_file file)) w1).
Proof.
  intros Hint. eexists. split; [apply save_data_eq|].
  unfold load_data, try_except, open_read, mbind, M_bind, gets, lift, logging, modify.
  simpl. rewrite lookup_insert_eq. simpl.
  rewrite json_loads_dumps_named by done. reflexivity.
Qed.

Lemma save_load_renames_keys_witness :
  ∃ w1,
    save_data None mixed_keys = (Ret (), w1) ∧
    load_data None w1 =
      (Ret (PyDict [(KStr "123", PyInt 8); (KStr "pear", PyInt 1)]),
       append_log (load_info_record default_file) w1).
Proof.
  apply (save_load_renames_keys None mixed_keys). repeat constructor.
Defined.

(** ** Items that are sold out *)

Lemma low_stock_keys d t x :
  x ∈ low_stock d t → ∃ k, x = of_key k ∧ k ∈ dict_keys d.
Proof.
  unfold low_stock, dict_keys. intros Hx.
  apply list_elem_of_fmap in Hx as (k & -> & Hk).
  exists k. split; [done|].
  apply list_elem_of_fmap in Hk as (e & -> & He).
  apply list_elem_of_fmap. exists e. split; [done|].
  by apply list_elem_of_filter in He as [_ He].
Qed.

Lemma of_key_inj k k' : of_key k = of_key k' → k = k'.
Proof. destruct k, k'; simpl; congruence. Qed.

(** X18.  An item whose whole stock is removed is not reported as low:
    after [remove_item] takes at least what the item holds, [get_qty]
    answers 0 for it, yet [check_low_items] does not list it for any integer
    threshold, since the key is gone. *)
Theorem sold_out_not_listed item q w k cur t :
  int_valued (data w) →
  py_hash item = Ret k →
  dict_lookup (data w) k = Some (PyInt cur) → cur <= q →
  ∃ w' l,
    remove_item item (PyInt q) w = (Ret (), w') ∧
    get_qty item w' = (Ret (PyInt 0), w') ∧
    check_low_items (Some (PyInt t)) w' = (Ret l, w') ∧
    item ∉ l.
Proof.
  intros Hint Hh Hl Hle.
  rewrite (remove_item_hashable _ _ _ k Hh), Hl. simpl.
  rewrite (proj2 (Z.leb_le (cur - q) 0)) by lia. simpl.
  rewrite dict_del_set.
  eexists _, (low_stock (dict_del (data w) k) t). split; [reflexivity|].
  split; [|split].
  - unfold get_qty, data_get, mbind, M_bind, lift, gets. rewrite Hh. simpl.
    rewrite dict_lookup_del. by destruct (decide (k = k)).
  - unfold check_low_items, mbind, M_bind, gets, lift. simpl.
    rewrite low_items_int; [done|]. by apply Forall_dict_del.
  - intros Hin. apply low_stock_keys in Hin as (k' & Hk' & Hin).
    rewrite (py_hash_inv _ _ Hh) in Hk'. apply of_key_inj in Hk' as <-.
    rewrite dict_keys_del in Hin.
    by apply list_elem_of_filter in Hin as [Hne _].
Qed.

Lemma sold_out_not_listed_witness :
  ∃ w' l,
    remove_item (PyStr "banana") (PyInt 2) stocked = (Ret (), w') ∧
    get_qty (PyStr "banana") w' = (Ret (PyInt 0), w') ∧
    check_low_items (Some (PyInt 5)) w' = (Ret l, w') ∧
    PyStr "banana" ∉ l.
Proof.
  apply (sold_out_not_listed (PyStr "banana") 2 stocked (KStr "banana") 2 5).
  - repeat constructor.
  - reflexivity.
  - reflexivity.
  - lia.
Defined.

(** ** The file is plain ASCII *)

Lemma plain_text_append a b :
  plain_text (a +:+ b) = plain_text a && plain_text b.
Proof.
  induction a as [|c a IH]; simpl; [done|].
  rewrite IH. by rewrite andb_assoc.
Qed.

Lemma plain_escape_char c : plain_text (escape_char c) = true.
Proof. destruct c as [[] [] [] [] [] [] [] []]; reflexivity. Qed.

Lemma plain_escape s : plain_text (escape s) = true.
Proof.
  induction s as [|c s IH]; [done|].
  change (escape (String c s)) with (escape_char c +:+ escape s).
  by rewrite plain_text_append, plain_escape_char, IH.
Qed.

Lemma plain_encode_str s : plain_text (encode_str s) = true.
Proof.
  unfold encode_str. cbn [plain_text].
  by rewrite plain_text_append, plain_escape.
Qed.

Lemma plain_digits u : plain_text (digits u) = true.
Proof. induction u; simpl; auto. Qed.

Lemma plain_encode_int z : plain_text (encode_int z) = true.
Proof.
  unfold encode_int. destruct (Z.to_int z); simpl; apply plain_digits.
Qed.

Lemma plain_encode_key k : plain_text (encode_key k) = true.
Proof. destruct k; apply plain_encode_str. Qed.

Lemma plain_spaces n : plain_text (spaces n) = true.
Proof. induction n; simpl; auto. Qed.

Lemma plain_newline_indent level : plain_text (newline_indent level) = true.
Proof.
  unfold newline_indent. by rewrite plain_text_append, plain_spaces.
Qed.

(** Induction on a value through the lists and dicts it holds. *)
Lemma pyval_nested_ind (P : pyval → Prop) :
  P PyNone → (∀ z, P (PyInt z)) → (∀ s, P (PyStr s)) →
  (∀ l, Forall P l → P (PyList l)) →
  (∀ d, Forall (λ e : pykey * pyval, P e.2) d → P (PyDict d)) →
  ∀ v, P v.
Proof.
  intros HN HI HS HL HD.
  fix IH 1. intros [| z | s | l | d]; [done..| |].
  - apply HL. induction l as [|x l IHl]; constructor; [apply IH|exact IHl].
  - apply HD. induction d as [|[k x] d IHd]; constructor; [apply IH|exact IHd].
Qed.

Lemma plain_json_encode v : ∀ level, plain_text (json_encode level v) = true.
Proof.
  induction v as [| z | s | l Hl | d Hd] using pyval_nested_ind; intros level.
  - reflexivity.
  - apply plain_encode_int.
  - apply plain_encode_str.
  - destruct l as [|x xs]; [reflexivity|].
    inversion Hl as [|? ? Hx Hxs]; subst. cbn [json_encode].
    rewrite !plain_text_append, plain_newline_indent, Hx. simpl.
    clear Hl Hx. induction Hxs as [|y ys Hy Hys IH]; cbn [elements_text].
    + by rewrite plain_text_append, plain_newline_indent.
    + rewrite !plain_text_append, plain_newline_indent, Hy, IH. reflexivity.
  - destruct d as [|[k x] d]; [reflexivity|].
    inversion Hd as [|? ? Hx Hxs]; subst. simpl in Hx. cbn [json_encode].
    rewrite !plain_text_append, plain_newline_indent, plain_encode_key, Hx.
    simpl. clear Hd Hx.
    induction Hxs as [|[k' y] ys Hy Hys IH]; cbn [entries_text].
    + by rewrite plain_text_append, plain_newline_indent.
    + simpl in Hy.
      rewrite !plain_text_append, plain_newline_indent, plain_encode_key, Hy, IH.
      reflexivity.
Qed.

(** X19.  Whatever the dict holds, the text [save_data] writes consists of
    printable ASCII characters and newlines only: every other character of a
    key or of a string is written as an escape. *)
Theorem save_data_plain_ascii file w :
  ∃ text,
    disk (save_data file w).2 !! default default_file file = Some text ∧
    plain_text text = true.
Proof.
  exists (json_dumps (PyDict (data w))). rewrite save_data_eq. simpl. split.
  - apply lookup_insert_eq.
  - apply plain_json_encode.
Qed.
